(** * DynamicsProcessing.cpp: the AIDL binding of the dynamics-processing effect

    A shallow embedding of
    [media/libeffects/dynamicsproc/aidl/DynamicsProcessing.cpp]: the two
    exported entry points [createEffect] and [queryEffect], and the methods
    of [DynamicsProcessingImpl].

    The file is glue around a [DynamicsProcessingContext] object that it
    reaches through the shared pointer [mContext].  The context, the
    AIDL parcelables it exchanges and the inherited worker thread are
    declared elsewhere; they are an interface here ([Parcelables],
    [DynamicsProcessingContext]) and every result below holds for each
    implementation of it.  Calls that leave the file (engine calls, object
    creation) and the writes to [mState] are recorded, in program order, in
    a list of events next to the result.  Logging has no counterpart. *)

From Stdlib Require Import ZArith List String Bool.
Import ListNotations.
Local Open Scope Z_scope.

Set Implicit Arguments.

(** ** Binder status codes and return codes *)

(** Modelled from the spec: the binder status header is not part of the
    sources.  [binder_exception_t] is an [int32_t]; the exception codes
    have the values of that header. *)
Definition binder_exception_t := Z.

Definition EX_NONE : binder_exception_t := 0.
Definition EX_SECURITY : binder_exception_t := -1.
Definition EX_BAD_PARCELABLE : binder_exception_t := -2.
Definition EX_ILLEGAL_ARGUMENT : binder_exception_t := -3.
Definition EX_NULL_POINTER : binder_exception_t := -4.
Definition EX_ILLEGAL_STATE : binder_exception_t := -5.
Definition EX_NETWORK_MAIN_THREAD : binder_exception_t := -6.
Definition EX_UNSUPPORTED_OPERATION : binder_exception_t := -7.
Definition EX_SERVICE_SPECIFIC : binder_exception_t := -8.
Definition EX_PARCELABLE : binder_exception_t := -9.
Definition EX_TRANSACTION_FAILED : binder_exception_t := -129.

(** Modelled from the spec: [ndk::ScopedAStatus] is declared outside the
    sources; a status is an exception code and its message, and it is ok
    when the code is [EX_NONE]. *)
Record ScopedAStatus := mkStatus {
  getExceptionCode : binder_exception_t;
  getMessage : string
}.

Definition ScopedAStatus_ok : ScopedAStatus := mkStatus EX_NONE EmptyString.

Definition fromExceptionCodeWithMessage (e : binder_exception_t) (msg : string)
  : ScopedAStatus := mkStatus e msg.

Definition isOk (st : ScopedAStatus) : bool := getExceptionCode st =? EX_NONE.

(** Modelled from the spec: [RetCode] is an enumeration of the effect
    implementation headers, which are not part of the sources. *)
Inductive RetCode :=
| SUCCESS
| ERROR_ILLEGAL_PARAMETER
| ERROR_THREAD
| ERROR_NULL_POINTER
| ERROR_ALIGNMENT_ERROR
| ERROR_BLOCK_SIZE_EXCEED
| ERROR_EFFECT_LIB_ERROR
| ERROR_EVENT_FLAG_ERROR.

Definition RetCode_eqb (a b : RetCode) : bool :=
  match a, b with
  | SUCCESS, SUCCESS
  | ERROR_ILLEGAL_PARAMETER, ERROR_ILLEGAL_PARAMETER
  | ERROR_THREAD, ERROR_THREAD
  | ERROR_NULL_POINTER, ERROR_NULL_POINTER
  | ERROR_ALIGNMENT_ERROR, ERROR_ALIGNMENT_ERROR
  | ERROR_BLOCK_SIZE_EXCEED, ERROR_BLOCK_SIZE_EXCEED
  | ERROR_EFFECT_LIB_ERROR, ERROR_EFFECT_LIB_ERROR
  | ERROR_EVENT_FLAG_ERROR, ERROR_EVENT_FLAG_ERROR => true
  | _, _ => false
  end.

(** Modelled from the spec: [IEffect::Status] is an AIDL parcelable
    declared outside the sources, with three [int] fields. *)
Record IEffect_Status := mkIEffectStatus {
  status : Z;
  fmqConsumed : Z;
  fmqProduced : Z
}.

(** Modelled from the spec: [State] of an effect instance and the
    [CommandId] of [IEffect::command] are AIDL enumerations declared outside
    the sources; [VENDOR_COMMAND n] stands for the vendor range. *)
Inductive State := INIT | IDLE | PROCESSING.

Definition State_eqb (a b : State) : bool :=
  match a, b with
  | INIT, INIT | IDLE, IDLE | PROCESSING, PROCESSING => true
  | _, _ => false
  end.

Inductive CommandId := START | STOP | RESET | VENDOR_COMMAND (n : Z).

(** ** Audio configuration *)

(** Modelled from the spec: [PcmType] and the audio configuration
    parcelables are declared outside the sources; of a configuration only
    the path to the PCM type, the sample rate and the frame count are
    kept. *)
Inductive PcmType :=
| UINT_8_BIT | INT_16_BIT | INT_32_BIT | FIXED_Q_8_24 | FLOAT_32_BIT | INT_24_BIT.

Definition PcmType_eqb (a b : PcmType) : bool :=
  match a, b with
  | UINT_8_BIT, UINT_8_BIT | INT_16_BIT, INT_16_BIT | INT_32_BIT, INT_32_BIT
  | FIXED_Q_8_24, FIXED_Q_8_24 | FLOAT_32_BIT, FLOAT_32_BIT
  | INT_24_BIT, INT_24_BIT => true
  | _, _ => false
  end.

Record AudioFormatDescription := { pcm : PcmType }.
Record AudioConfigBase := { sampleRate : Z; format : AudioFormatDescription }.
Record AudioConfig := { base : AudioConfigBase; frameCount : Z }.

(** Modelled from the spec: [Parameter::Common], declared outside the
    sources. *)
Record Parameter_Common := {
  session : Z;
  ioHandle : Z;
  input : AudioConfig;
  output : AudioConfig
}.

(** ** UUIDs and the descriptor *)

(** Modelled from the spec: [AudioUuid] is an AIDL parcelable declared
    outside the sources; two UUIDs are equal when all their fields are. *)
Record AudioUuid := {
  timeLow : Z;
  timeMid : Z;
  timeHiAndVersion : Z;
  clockSeq : Z;
  node : list Z
}.

Definition AudioUuid_eqb (a b : AudioUuid) : bool :=
  (timeLow a =? timeLow b) && (timeMid a =? timeMid b) &&
  (timeHiAndVersion a =? timeHiAndVersion b) && (clockSeq a =? clockSeq b) &&
  (if list_eq_dec Z.eq_dec (node a) (node b) then true else false).

(** Modelled from the spec: the effects that share the AIDL unions
    [Parameter::Specific], [Parameter::Id] and [Capability] with dynamics
    processing; their payloads never reach this file. *)
Inductive OtherEffect :=
| vendorEffect | acousticEchoCanceler | automaticGainControlV1
| automaticGainControlV2 | bassBoost | downmix | envReverb | equalizer
| hapticGenerator | loudnessEnhancer | noiseSuppression | presetReverb
| virtualizer | visualizer | volume.

(** Modelled from the spec: the AIDL parcelables [Flags] and [Descriptor],
    declared outside the sources, with the fields that [kDescriptor]
    sets. *)
Inductive Flags_Type := INSERT | AUXILIARY | PRE_PROC | POST_PROC.
Inductive Flags_Insert := ANY | FIRST | LAST | EXCLUSIVE.
Inductive Flags_Volume := NONE | CTRL | IND | MONITOR.

Record Flags := {
  flags_type : Flags_Type;
  flags_insert : Flags_Insert;
  flags_volume : Flags_Volume
}.

Record Descriptor_Identity := {
  id_type : AudioUuid;
  id_uuid : AudioUuid;
  id_proxy : option AudioUuid
}.

Record Descriptor_Common := {
  id : Descriptor_Identity;
  flags : Flags;
  name : string;
  implementor : string
}.

(** Modelled from the spec: [DynamicsProcessing::Capability], declared
    outside the sources; the source gives the two frequencies by integer
    literals. *)
Record DynamicsProcessing_Capability := {
  minCutOffFreq : Z;
  maxCutOffFreq : Z
}.

Inductive Capability :=
| Capability_dynamicsProcessing (c : DynamicsProcessing_Capability)
| Capability_other (e : OtherEffect).

Record Descriptor := {
  common : Descriptor_Common;
  capability : Capability
}.

(** ** The dynamics-processing parameter union *)

(** The AIDL parcelables that are only passed through, the sample type of
    the audio buffers, and the two UUID constants of the effect. *)
Class Parcelables := {
  EngineArchitecture : Type;
  ChannelConfig : Type;
  EqBandConfig : Type;
  MbcBandConfig : Type;
  LimiterConfig : Type;
  InputGain : Type;
  VendorExtension : Type;
  OpenEffectReturn : Type;
  float32 : Type;
  kDynamicsProcessingTypeUUID : AudioUuid;
  kDynamicsProcessingImplUUID : AudioUuid
}.

(** Modelled from the spec: [DynamicsProcessing::Tag], the tags of the
    AIDL union [DynamicsProcessing], which is declared outside the
    sources. *)
Inductive DynamicsProcessing_Tag :=
| vendorExtension | engineArchitecture | preEq | postEq | preEqBand
| postEqBand | mbc | mbcBand | limiter | inputGain.

(** Modelled from the spec: the union [DynamicsProcessing]; [make_t v] is
    [DynamicsProcessing::make<t>(v)], and a [switch] on the tag followed by
    [get<t>()] is a [match]. *)
Inductive DynamicsProcessing `{Parcelables} :=
| make_vendorExtension (v : VendorExtension)
| make_engineArchitecture (v : EngineArchitecture)
| make_preEq (v : list ChannelConfig)
| make_postEq (v : list ChannelConfig)
| make_preEqBand (v : list EqBandConfig)
| make_postEqBand (v : list EqBandConfig)
| make_mbc (v : list ChannelConfig)
| make_mbcBand (v : list MbcBandConfig)
| make_limiter (v : list LimiterConfig)
| make_inputGain (v : list InputGain).

(** Modelled from the spec: [Parameter::Specific], declared outside the
    sources: the dynamics-processing alternative, or the alternative of
    another effect. *)
Inductive Parameter_Specific `{Parcelables} :=
| Specific_dynamicsProcessing (p : DynamicsProcessing)
| Specific_other (e : OtherEffect).

(** Modelled from the spec: [DynamicsProcessing::Id] and [Parameter::Id],
    declared outside the sources. *)
Inductive DynamicsProcessing_Id `{Parcelables} :=
| Id_vendorExtensionTag (v : VendorExtension)
| Id_commonTag (t : DynamicsProcessing_Tag).

Inductive Parameter_Id `{Parcelables} :=
| Id_dynamicsProcessingTag (dpId : DynamicsProcessing_Id)
| Id_otherTag (e : OtherEffect)
| Id_parameterCommonTag.

(** A [float*] argument: null, or the samples it points to. *)
Definition Buffer `{Parcelables} := option (list float32).

(** ** The context and the inherited base classes

    [DynamicsProcessingContext] is the object behind [mContext]; its
    methods, and the two inherited methods of [EffectImpl] and
    [EffectThread] that [open] calls, are the operations of this class.
    A method takes the object and returns its result with the object after
    the call. *)
Class DynamicsProcessingContext `{Parcelables} := {
  Ctx : Type;
  (** the worker of the inherited [EffectThread] *)
  Worker : Type;
  newWorker : Worker;
  (** [DynamicsProcessingContext(statusFmqDepth, common)] *)
  makeContext : Z -> Parameter_Common -> Ctx;
  enable : Ctx -> Ctx;
  disable : Ctx -> Ctx;
  resetBuffer : Ctx -> Ctx;
  lvmProcess : Buffer -> Buffer -> Z -> Ctx -> IEffect_Status * Buffer * Buffer * Ctx;
  dupeFmq : option OpenEffectReturn -> Ctx -> option OpenEffectReturn * Ctx;
  setEngineArchitecture : EngineArchitecture -> Ctx -> RetCode * Ctx;
  setPreEq : list ChannelConfig -> Ctx -> RetCode * Ctx;
  setPostEq : list ChannelConfig -> Ctx -> RetCode * Ctx;
  setPreEqBand : list EqBandConfig -> Ctx -> RetCode * Ctx;
  setPostEqBand : list EqBandConfig -> Ctx -> RetCode * Ctx;
  setMbc : list ChannelConfig -> Ctx -> RetCode * Ctx;
  setMbcBand : list MbcBandConfig -> Ctx -> RetCode * Ctx;
  setLimiter : list LimiterConfig -> Ctx -> RetCode * Ctx;
  setInputGain : list InputGain -> Ctx -> RetCode * Ctx;
  getEngineArchitecture : Ctx -> EngineArchitecture;
  getPreEq : Ctx -> list ChannelConfig;
  getPostEq : Ctx -> list ChannelConfig;
  getPreEqBand : Ctx -> list EqBandConfig;
  getPostEqBand : Ctx -> list EqBandConfig;
  getMbc : Ctx -> list ChannelConfig;
  getMbcBand : Ctx -> list MbcBandConfig;
  getLimiter : Ctx -> list LimiterConfig;
  getInputGain : Ctx -> list InputGain;
  (** [EffectImpl::setCommon] part of the inherited [setParameterCommon],
      on the context it finds *)
  setCommon : Parameter_Common -> Ctx -> ScopedAStatus * Ctx;
  (** [EffectThread::createThread(context, name)] *)
  createThread : option Ctx -> string -> Worker -> RetCode * Worker
}.

(** A statement either falls through with a value or leaves the method
    with the method's result. *)
Inductive Flow (R A : Type) :=
| Next (a : A)
| Return (r : R).
Arguments Next {R A} a.
Arguments Return {R A} r.

Section Model.

Context {P : Parcelables} {E : DynamicsProcessingContext}.

(** ** Instances, events, and the monad of method bodies *)

(** A [DynamicsProcessingImpl] object: [mState] (inherited, [INIT] in a
    new object), the shared pointer [mContext] (null, or the context it
    owns) and the inherited worker. *)
Record DynamicsProcessingImpl := mkImpl {
  mState : State;
  mContext : option Ctx;
  mWorker : Worker
}.

Definition set_context (c : option Ctx) (s : DynamicsProcessingImpl) :=
  mkImpl (mState s) c (mWorker s).

(** A call of a method of the context, with its arguments. *)
Inductive ContextCall :=
| call_enable
| call_disable
| call_resetBuffer
| call_lvmProcess (in_ out : Buffer) (samples : Z)
| call_dupeFmq (ret : option OpenEffectReturn)
| call_setEngineArchitecture (v : EngineArchitecture)
| call_setPreEq (v : list ChannelConfig)
| call_setPostEq (v : list ChannelConfig)
| call_setPreEqBand (v : list EqBandConfig)
| call_setPostEqBand (v : list EqBandConfig)
| call_setMbc (v : list ChannelConfig)
| call_setMbcBand (v : list MbcBandConfig)
| call_setLimiter (v : list LimiterConfig)
| call_setInputGain (v : list InputGain)
| call_getEngineArchitecture
| call_getPreEq
| call_getPostEq
| call_getPreEqBand
| call_getPostEqBand
| call_getMbc
| call_getMbcBand
| call_getLimiter
| call_getInputGain.

(** What a method does besides computing its result, in program order. *)
Inductive Event :=
| EvMakeEffect                                     (* make<DynamicsProcessingImpl>() *)
| EvMakeContext (depth : Z) (c : Parameter_Common) (* make_shared<DynamicsProcessingContext> *)
| EvContext (c : ContextCall)                      (* a call through the context pointer *)
| EvSetParameterCommon (c : Parameter_Common)      (* the inherited setParameterCommon *)
| EvCreateThread (name : string)                   (* the inherited createThread *)
| EvState (st : State)                             (* an assignment to mState *)
| EvResetContext (released : Ctx).                 (* mContext.reset() *)

(** A method body: from the object before to the flow, the object after
    and the events; [None] when the body dereferences a null pointer. *)
Definition M (R A : Type) :=
  DynamicsProcessingImpl -> option (Flow R A * DynamicsProcessingImpl * list Event).

(** A method seen from its caller. *)
Definition Method (R : Type) :=
  DynamicsProcessingImpl -> option (R * DynamicsProcessingImpl * list Event).

Definition pure {R A} (a : A) : M R A := fun s => Some (Next a, s, []).

Definition leave {R A} (r : R) : M R A := fun s => Some (Return r, s, []).

Definition bind {R A B} (m : M R A) (f : A -> M R B) : M R B := fun s =>
  match m s with
  | None => None
  | Some (Return r, s1, e1) => Some (Return r, s1, e1)
  | Some (Next a, s1, e1) =>
      match f a s1 with
      | None => None
      | Some (fl, s2, e2) => Some (fl, s2, e1 ++ e2)
      end
  end.

Notation "x <- m ;; k" := (bind m (fun x => k))
  (at level 100, m at next level, right associativity).
Notation "m ;; k" := (bind m (fun _ => k))
  (at level 100, right associativity).

(** The result of a method whose body ended with [fl]: the value of its
    last statement, or the value it returned early. *)
Definition result {R} (fl : Flow R R) : R :=
  match fl with
  | Next r => r
  | Return r => r
  end.

(** The body of a method, seen from the caller. *)
Definition method {R} (m : M R R) : Method R := fun s =>
  match m s with
  | None => None
  | Some (fl, s1, e) => Some (result fl, s1, e)
  end.

(** A call of another method of the object. *)
Definition call {R A} (m : Method A) : M R A := fun s =>
  match m s with
  | None => None
  | Some (a, s1, e) => Some (Next a, s1, e)
  end.

Definition read_mState {R} : M R State := fun s => Some (Next (mState s), s, []).

Definition write_mState {R} (st : State) : M R unit := fun s =>
  Some (Next tt, mkImpl st (mContext s) (mWorker s), [EvState st]).

Definition read_mContext {R} : M R (option Ctx) := fun s =>
  Some (Next (mContext s), s, []).

(** [mContext->f(...)]: undefined on a null pointer. *)
Definition through_mContext {R A} (c : ContextCall) (f : Ctx -> A * Ctx) : M R A :=
  fun s =>
    match mContext s with
    | None => None
    | Some x => let (a, x') := f x in
                Some (Next a, set_context (Some x') s, [EvContext c])
    end.

(** A const method of the context. *)
Definition const_call {A} (f : Ctx -> A) : Ctx -> A * Ctx := fun x => (f x, x).

(** A void method of the context. *)
Definition void_call (f : Ctx -> Ctx) : Ctx -> unit * Ctx := fun x => (tt, f x).

(** ** The macros of the effect implementation headers *)

(** Modelled from the spec: the macros [RETURN_IF], [RETURN_OK_IF],
    [RETURN_VALUE_IF] and [RETURN_IF_ASTATUS_NOT_OK] are defined in a header
    that is not part of the sources.  [RETURN_VALUE_IF(expr, ret, log)]
    returns [ret] when [expr] holds. *)
Definition RETURN_VALUE_IF {R} (expr : bool) (ret : R) : M R unit :=
  if expr then leave ret else pure tt.

(** In a method with an out-parameter the result of the method is its
    status with the content of the out-parameter at the return; [k] turns
    the status into that result ([status_only] when there is none). *)
Definition status_only (st : ScopedAStatus) : ScopedAStatus := st.

Definition leaving {X} (out : X) (st : ScopedAStatus) : ScopedAStatus * X :=
  (st, out).

(** Modelled from the spec: [RETURN_IF(expr, exception, message)] returns
    the status made of [exception] and [message] when [expr] holds. *)
Definition RETURN_IF {R} (k : ScopedAStatus -> R) (expr : bool)
    (exception : binder_exception_t) (message : string) : M R unit :=
  RETURN_VALUE_IF expr (k (fromExceptionCodeWithMessage exception message)).

(** Modelled from the spec: [RETURN_OK_IF(expr)] returns the ok status
    when [expr] holds. *)
Definition RETURN_OK_IF {R} (k : ScopedAStatus -> R) (expr : bool) : M R unit :=
  RETURN_VALUE_IF expr (k ScopedAStatus_ok).

(** Modelled from the spec: [RETURN_IF_ASTATUS_NOT_OK(status, message)]
    evaluates [status] and, unless it is ok, returns its exception code
    with [message]. *)
Definition RETURN_IF_ASTATUS_NOT_OK {R} (k : ScopedAStatus -> R)
    (status : M R ScopedAStatus) (message : string) : M R unit :=
  curr_status <- status ;;
  RETURN_VALUE_IF (negb (isOk curr_status))
    (k (fromExceptionCodeWithMessage (getExceptionCode curr_status) message)).

(** ** Null tests and union accessors *)

Definition is_null {A} (p : option A) : bool :=
  match p with Some _ => false | None => true end.

(** [specific.getTag() == Parameter::Specific::dynamicsProcessing] and
    [specific.get<Parameter::Specific::dynamicsProcessing>()]. *)
Definition Specific_is_dynamicsProcessing (specific : Parameter_Specific) : bool :=
  match specific with
  | Specific_dynamicsProcessing _ => true
  | Specific_other _ => false
  end.

Definition Specific_get_dynamicsProcessing (specific : Parameter_Specific)
  : option DynamicsProcessing :=
  match specific with
  | Specific_dynamicsProcessing p => Some p
  | Specific_other _ => None
  end.

Definition Id_is_dynamicsProcessingTag (id : Parameter_Id) : bool :=
  match id with
  | Id_dynamicsProcessingTag _ => true
  | _ => false
  end.

Definition Id_get_dynamicsProcessingTag (id : Parameter_Id)
  : option DynamicsProcessing_Id :=
  match id with
  | Id_dynamicsProcessingTag dpId => Some dpId
  | _ => None
  end.

(** [get<tag>()] on a union that holds another alternative does not
    return. *)
Definition get_or_abort {R A} (v : option A) : M R A := fun s =>
  match v with
  | Some a => Some (Next a, s, [])
  | None => None
  end.

(** ** The exported entry points *)

(** [!in_impl_uuid || *in_impl_uuid != kDynamicsProcessingImplUUID] *)
Definition uuid_not_supported (in_impl_uuid : option AudioUuid) : bool :=
  match in_impl_uuid with
  | None => true
  | Some u => negb (AudioUuid_eqb u kDynamicsProcessingImplUUID)
  end.

(** Modelled from the spec: the class declaration is not part of the
    sources.  [ndk::SharedRefBase::make<DynamicsProcessingImpl>()] gives a
    new object, in state [INIT] and without a context. *)
Definition make_DynamicsProcessingImpl : DynamicsProcessingImpl :=
  mkImpl INIT None newWorker.

(** [instanceSpp] is null, or points to a shared pointer that is empty or
    holds an instance.  The result is the returned code, the content of
    [*instanceSpp] afterwards, and the events. *)
Definition createEffect (in_impl_uuid : option AudioUuid)
    (instanceSpp : option (option DynamicsProcessingImpl))
  : binder_exception_t * option (option DynamicsProcessingImpl) * list Event :=
  if uuid_not_supported in_impl_uuid then
    (EX_ILLEGAL_ARGUMENT, instanceSpp, [])
  else
    match instanceSpp with
    | Some _ => (EX_NONE, Some (Some make_DynamicsProcessingImpl), [EvMakeEffect])
    | None => (EX_ILLEGAL_ARGUMENT, None, [])
    end.

Definition kEffectName : string := "DynamicsProcessing"%string.

Definition kCapability : DynamicsProcessing_Capability :=
  {| minCutOffFreq := 220; maxCutOffFreq := 20000 |}.

Definition kDescriptor : Descriptor :=
  {| common :=
       {| id := {| id_type := kDynamicsProcessingTypeUUID;
                   id_uuid := kDynamicsProcessingImplUUID;
                   id_proxy := None |};
          flags := {| flags_type := INSERT;
                      flags_insert := LAST;
                      flags_volume := CTRL |};
          name := kEffectName;
          implementor := "The Android Open Source Project"%string |};
     capability := Capability_dynamicsProcessing kCapability |}.

(** [_aidl_return] is null, or points to a descriptor.  The result is the
    returned code and the content of [*_aidl_return] afterwards; [None]
    when the assignment goes through a null pointer. *)
Definition queryEffect (in_impl_uuid : option AudioUuid)
    (_aidl_return : option Descriptor)
  : option (binder_exception_t * option Descriptor) :=
  if uuid_not_supported in_impl_uuid then
    Some (EX_ILLEGAL_ARGUMENT, _aidl_return)
  else
    match _aidl_return with
    | Some _ => Some (EX_NONE, Some kDescriptor)
    | None => None
    end.

(** ** Context life cycle *)

(** [mContext = std::make_shared<DynamicsProcessingContext>(depth, common)] *)
Definition make_shared_mContext {R} (depth : Z) (common : Parameter_Common)
  : M R unit := fun s =>
  Some (Next tt, set_context (Some (makeContext depth common)) s,
        [EvMakeContext depth common]).

(** [mContext.reset()] *)
Definition reset_mContext {R} : M R unit := fun s =>
  match mContext s with
  | Some x => Some (Next tt, set_context None s, [EvResetContext x])
  | None => Some (Next tt, s, [])
  end.

(** The result is the returned shared pointer: it is [mContext]. *)
Definition createContext (common : Parameter_Common) : Method (option Ctx) :=
  method (
    c <- read_mContext ;;
    RETURN_VALUE_IF (negb (is_null c)) c ;;
    make_shared_mContext 1 common ;;
    read_mContext).

Definition releaseContext : Method RetCode :=
  method (
    c <- read_mContext ;;
    (if negb (is_null c) then
       through_mContext call_disable (void_call disable) ;;
       through_mContext call_resetBuffer (void_call resetBuffer) ;;
       reset_mContext
     else pure tt) ;;
    pure SUCCESS).

(** ** Processing *)

(** The result is the returned status with the two buffers after the
    call. *)
Definition effectProcessImpl (in_ out : Buffer) (samples : Z)
  : Method (IEffect_Status * Buffer * Buffer) :=
  method (
    let status := mkIEffectStatus EX_NULL_POINTER 0 0 in
    c <- read_mContext ;;
    RETURN_VALUE_IF (is_null c) (status, in_, out) ;;
    through_mContext (call_lvmProcess in_ out samples)
      (fun x => let '(st, i, o, x') := lvmProcess in_ out samples x in
                ((st, i, o), x'))).

(** ** Commands *)

Definition commandImpl (command : CommandId) : Method ScopedAStatus :=
  method (
    c <- read_mContext ;;
    RETURN_IF status_only (is_null c) EX_NULL_POINTER "nullContext" ;;
    match command with
    | START =>
        through_mContext call_enable (void_call enable) ;;
        pure ScopedAStatus_ok
    | STOP =>
        through_mContext call_disable (void_call disable) ;;
        pure ScopedAStatus_ok
    | RESET =>
        through_mContext call_disable (void_call disable) ;;
        through_mContext call_resetBuffer (void_call resetBuffer) ;;
        pure ScopedAStatus_ok
    | VENDOR_COMMAND _ =>
        pure (fromExceptionCodeWithMessage EX_ILLEGAL_ARGUMENT
                "commandIdNotSupported")
    end).

Definition getDescriptor (_aidl_return : option Descriptor)
  : ScopedAStatus * option Descriptor :=
  match _aidl_return with
  | None => (fromExceptionCodeWithMessage EX_ILLEGAL_ARGUMENT "Parameter:nullptr",
             None)
  | Some _ => (ScopedAStatus_ok, Some kDescriptor)
  end.

(** ** Setting and getting parameters *)

(** One arm of the switch of [setParameterSpecific]:
    [RETURN_IF(mContext->setter(payload) != RetCode::SUCCESS,
    EX_ILLEGAL_ARGUMENT, message); return ok]. *)
Definition set_through_mContext (c : ContextCall) (setter : Ctx -> RetCode * Ctx)
    (message : string) : M ScopedAStatus ScopedAStatus :=
  rc <- through_mContext c setter ;;
  RETURN_IF status_only (negb (RetCode_eqb rc SUCCESS)) EX_ILLEGAL_ARGUMENT message ;;
  pure ScopedAStatus_ok.

Definition setParameterSpecific (specific : Parameter_Specific)
  : Method ScopedAStatus :=
  method (
    RETURN_IF status_only (negb (Specific_is_dynamicsProcessing specific))
      EX_ILLEGAL_ARGUMENT "EffectNotSupported" ;;
    c <- read_mContext ;;
    RETURN_IF status_only (is_null c) EX_NULL_POINTER "nullContext" ;;
    param <- get_or_abort (Specific_get_dynamicsProcessing specific) ;;
    match param with
    | make_engineArchitecture v =>
        set_through_mContext (call_setEngineArchitecture v)
          (setEngineArchitecture v) "setEngineArchitectureFailed"
    | make_preEq v =>
        set_through_mContext (call_setPreEq v) (setPreEq v) "setPreEqFailed"
    | make_postEq v =>
        set_through_mContext (call_setPostEq v) (setPostEq v) "setPostEqFailed"
    | make_preEqBand v =>
        set_through_mContext (call_setPreEqBand v) (setPreEqBand v)
          "setPreEqBandFailed"
    | make_postEqBand v =>
        set_through_mContext (call_setPostEqBand v) (setPostEqBand v)
          "setPostEqBandFailed"
    | make_mbc v =>
        set_through_mContext (call_setMbc v) (setMbc v) "setMbcFailed"
    | make_mbcBand v =>
        set_through_mContext (call_setMbcBand v) (setMbcBand v) "setMbcBandFailed"
    | make_limiter v =>
        set_through_mContext (call_setLimiter v) (setLimiter v) "setLimiterFailed"
    | make_inputGain v =>
        set_through_mContext (call_setInputGain v) (setInputGain v)
          "setInputGainFailed"
    | make_vendorExtension _ =>
        pure (fromExceptionCodeWithMessage EX_ILLEGAL_ARGUMENT
                "DPVendorExtensionTagNotSupported")
    end).

(** One arm of the switch of [getParameterDynamicsProcessing]:
    [specific->set<Parameter::Specific::dynamicsProcessing>(
    DynamicsProcessing::make<tag>(mContext->getter())); return ok]. *)
Definition get_through_mContext {A} (c : ContextCall) (getter : Ctx -> A)
    (make : A -> DynamicsProcessing)
  : M (ScopedAStatus * Parameter_Specific) (ScopedAStatus * Parameter_Specific) :=
  v <- through_mContext c (const_call getter) ;;
  pure (ScopedAStatus_ok, Specific_dynamicsProcessing (make v)).

(** [specific] is the object the pointer designates: the only caller,
    [getParameterSpecific], has checked the pointer.  The result is the
    status with the content of [*specific] afterwards. *)
Definition getParameterDynamicsProcessing (tag : DynamicsProcessing_Tag)
    (specific : Parameter_Specific)
  : Method (ScopedAStatus * Parameter_Specific) :=
  method (
    c <- read_mContext ;;
    RETURN_IF (leaving specific) (is_null c) EX_NULL_POINTER "nullContext" ;;
    match tag with
    | engineArchitecture =>
        get_through_mContext call_getEngineArchitecture getEngineArchitecture
          make_engineArchitecture
    | preEq => get_through_mContext call_getPreEq getPreEq make_preEq
    | postEq => get_through_mContext call_getPostEq getPostEq make_postEq
    | preEqBand =>
        get_through_mContext call_getPreEqBand getPreEqBand make_preEqBand
    | postEqBand =>
        get_through_mContext call_getPostEqBand getPostEqBand make_postEqBand
    | mbc => get_through_mContext call_getMbc getMbc make_mbc
    | mbcBand => get_through_mContext call_getMbcBand getMbcBand make_mbcBand
    | limiter => get_through_mContext call_getLimiter getLimiter make_limiter
    | inputGain =>
        get_through_mContext call_getInputGain getInputGain make_inputGain
    | vendorExtension =>
        pure (fromExceptionCodeWithMessage EX_ILLEGAL_ARGUMENT
                "DPVendorExtensionTagInWrongId", specific)
    end).

(** [specific] is null, or points to a [Parameter::Specific]. *)
Definition getParameterSpecific (id : Parameter_Id)
    (specific : option Parameter_Specific)
  : Method (ScopedAStatus * option Parameter_Specific) :=
  method (
    RETURN_IF (leaving specific) (is_null specific) EX_NULL_POINTER "nullPtr" ;;
    RETURN_IF (leaving specific) (negb (Id_is_dynamicsProcessingTag id))
      EX_ILLEGAL_ARGUMENT "wrongIdTag" ;;
    dpId <- get_or_abort (Id_get_dynamicsProcessingTag id) ;;
    match dpId with
    | Id_commonTag tag =>
        pointee <- get_or_abort specific ;;
        r <- call (getParameterDynamicsProcessing tag pointee) ;;
        pure (fst r, Some (snd r))
    | Id_vendorExtensionTag _ =>
        pure (fromExceptionCodeWithMessage EX_ILLEGAL_ARGUMENT
                "DPVendorExtensionIdNotSupported", specific)
    end).

(** ** Opening the effect *)

(** Modelled from the spec: [setParameterCommon] is inherited from
    [EffectImpl], which is not part of the sources.  It forwards the common
    parameter to the context it finds ([setCommon]), and fails with
    [EX_NULL_POINTER] when there is none; [open] calls it after it has
    checked the context. *)
Definition setParameterCommon {R} (common : Parameter_Common)
  : M R ScopedAStatus := fun s =>
  match mContext s with
  | None =>
      Some (Next (fromExceptionCodeWithMessage EX_NULL_POINTER "nullContext"),
            s, [EvSetParameterCommon common])
  | Some x =>
      let (st, x') := setCommon common x in
      Some (Next st, set_context (Some x') s, [EvSetParameterCommon common])
  end.

(** The inherited [createThread(context, name)]; [context] is the pointer
    that [createContext] returned, that is [mContext]. *)
Definition createThread_with_mContext {R} (name : string) : M R RetCode := fun s =>
  let (rc, w) := createThread (mContext s) name (mWorker s) in
  Some (Next rc, mkImpl (mState s) (mContext s) w, [EvCreateThread name]).

(** Modelled from the spec: [getEffectName] is defined with the class
    declaration, outside the sources; it returns [kEffectName]. *)
Definition getEffectName : string := kEffectName.

(** [ret] is null, or points to an [OpenEffectReturn]; the result is the
    status with the content of [*ret] afterwards.  The local [context]
    and [mContext] are the same shared object, so the calls through
    [context] are calls through [mContext]. *)
Definition open (common : Parameter_Common)
    (specific : option Parameter_Specific) (ret : option OpenEffectReturn)
  : Method (ScopedAStatus * option OpenEffectReturn) :=
  method (
    RETURN_IF (leaving ret)
      (negb (PcmType_eqb (pcm (format (base (input common))))
                         (pcm (format (base (output common))))) ||
       negb (PcmType_eqb (pcm (format (base (input common)))) FLOAT_32_BIT))
      EX_ILLEGAL_ARGUMENT "dataMustBe32BitsFloat" ;;
    st <- read_mState ;;
    RETURN_OK_IF (leaving ret) (negb (State_eqb st INIT)) ;;
    context <- call (createContext common) ;;
    RETURN_IF (leaving ret) (is_null context) EX_NULL_POINTER
      "createContextFailed" ;;
    RETURN_IF_ASTATUS_NOT_OK (leaving ret) (setParameterCommon common)
      "setCommParamErr" ;;
    match specific with
    | Some value =>
        RETURN_IF_ASTATUS_NOT_OK (leaving ret)
          (call (setParameterSpecific value)) "setSpecParamErr"
    | None =>
        arch <- through_mContext call_getEngineArchitecture
                  (const_call getEngineArchitecture) ;;
        let defaultSpecific :=
          Specific_dynamicsProcessing (make_engineArchitecture arch) in
        RETURN_IF_ASTATUS_NOT_OK (leaving ret)
          (call (setParameterSpecific defaultSpecific)) "setDefaultEngineErr"
    end ;;
    write_mState IDLE ;;
    ret' <- through_mContext (call_dupeFmq ret) (dupeFmq ret) ;;
    rc <- createThread_with_mContext getEffectName ;;
    RETURN_IF (leaving ret') (negb (RetCode_eqb rc SUCCESS))
      EX_UNSUPPORTED_OPERATION "FailedToCreateWorker" ;;
    pure (ScopedAStatus_ok, ret')).

End Model.

(** ** A small context, for running the model

    Parcelables are integers and the context keeps what it was given; the
    engine architecture is refused when negative, and processing copies the
    input to the output while the context is enabled. *)
Module Sample.

#[export] Instance parcelables : Parcelables := {
  EngineArchitecture := Z;
  ChannelConfig := Z;
  EqBandConfig := Z;
  MbcBandConfig := Z;
  LimiterConfig := Z;
  InputGain := Z;
  VendorExtension := Z;
  OpenEffectReturn := Z;
  float32 := Z;
  kDynamicsProcessingTypeUUID :=
    {| timeLow := 1; timeMid := 2; timeHiAndVersion := 3; clockSeq := 4;
       node := [1; 2; 3; 4; 5; 6] |};
  kDynamicsProcessingImplUUID :=
    {| timeLow := 5; timeMid := 6; timeHiAndVersion := 7; clockSeq := 8;
       node := [6; 5; 4; 3; 2; 1] |}
}.

Record context := {
  enabled : bool;
  pending : bool;
  config : option Parameter_Common;
  arch : Z;
  bands : list Z;
  gain : list Z;
  fmq : Z
}.

Definition with_enabled (b : bool) (x : context) : context :=
  {| enabled := b; pending := pending x; config := config x; arch := arch x;
     bands := bands x; gain := gain x; fmq := fmq x |}.

Definition with_pending (b : bool) (x : context) : context :=
  {| enabled := enabled x; pending := b; config := config x; arch := arch x;
     bands := bands x; gain := gain x; fmq := fmq x |}.

Definition with_config (c : Parameter_Common) (x : context) : context :=
  {| enabled := enabled x; pending := pending x; config := Some c;
     arch := arch x; bands := bands x; gain := gain x; fmq := fmq x |}.

Definition with_arch (v : Z) (x : context) : context :=
  {| enabled := enabled x; pending := pending x; config := config x; arch := v;
     bands := bands x; gain := gain x; fmq := fmq x |}.

Definition with_bands (v : list Z) (x : context) : context :=
  {| enabled := enabled x; pending := pending x; config := config x;
     arch := arch x; bands := v; gain := gain x; fmq := fmq x |}.

Definition with_gain (v : list Z) (x : context) : context :=
  {| enabled := enabled x; pending := pending x; config := config x;
     arch := arch x; bands := bands x; gain := v; fmq := fmq x |}.

Definition process (in_ out : option (list Z)) (samples : Z) (x : context)
  : IEffect_Status * option (list Z) * option (list Z) * context :=
  match in_, out with
  | Some i, Some _ =>
      if enabled x then
        (mkIEffectStatus EX_NONE samples samples, in_, Some i, with_pending true x)
      else (mkIEffectStatus EX_ILLEGAL_STATE 0 0, in_, out, x)
  | _, _ => (mkIEffectStatus EX_NULL_POINTER 0 0, in_, out, x)
  end.

Definition set_arch (v : Z) (x : context) : RetCode * context :=
  if v <? 0 then (ERROR_ILLEGAL_PARAMETER, x) else (SUCCESS, with_arch v x).

Definition set_common (c : Parameter_Common) (x : context)
  : ScopedAStatus * context :=
  if sampleRate (base (input c)) <=? 0
  then (fromExceptionCodeWithMessage EX_ILLEGAL_ARGUMENT "setCommFailed", x)
  else (ScopedAStatus_ok, with_config c x).

Definition create_thread (x : option context) (name : string) (running : bool)
  : RetCode * bool :=
  match x with
  | Some _ => (SUCCESS, true)
  | None => (ERROR_THREAD, running)
  end.

#[export] Instance engine : DynamicsProcessingContext := {
  Ctx := context;
  Worker := bool;
  newWorker := false;
  makeContext := fun depth c =>
    {| enabled := false; pending := false; config := Some c; arch := 0;
       bands := []; gain := []; fmq := depth |};
  enable := with_enabled true;
  disable := with_enabled false;
  resetBuffer := with_pending false;
  lvmProcess := process;
  dupeFmq := fun ret x =>
    (match ret with Some _ => Some (fmq x) | None => None end, x);
  setEngineArchitecture := set_arch;
  setPreEq := fun v x => (SUCCESS, with_bands v x);
  setPostEq := fun v x => (SUCCESS, with_bands v x);
  setPreEqBand := fun v x => (SUCCESS, with_bands v x);
  setPostEqBand := fun v x => (SUCCESS, with_bands v x);
  setMbc := fun v x => (SUCCESS, with_bands v x);
  setMbcBand := fun v x => (SUCCESS, with_bands v x);
  setLimiter := fun v x => (SUCCESS, with_bands v x);
  setInputGain := fun v x => (SUCCESS, with_gain v x);
  getEngineArchitecture := arch;
  getPreEq := bands;
  getPostEq := bands;
  getPreEqBand := bands;
  getPostEqBand := bands;
  getMbc := bands;
  getMbcBand := bands;
  getLimiter := bands;
  getInputGain := gain;
  setCommon := set_common;
  createThread := create_thread
}.

Definition float_config (rate : Z) : AudioConfig :=
  {| base := {| sampleRate := rate; format := {| pcm := FLOAT_32_BIT |} |};
     frameCount := 256 |}.

Definition int16_config (rate : Z) : AudioConfig :=
  {| base := {| sampleRate := rate; format := {| pcm := INT_16_BIT |} |};
     frameCount := 256 |}.

Definition common_float : Parameter_Common :=
  {| session := 1; ioHandle := 2;
     input := float_config 48000; output := float_config 48000 |}.

Definition common_int16 : Parameter_Common :=
  {| session := 1; ioHandle := 2;
     input := int16_config 48000; output := int16_config 48000 |}.

Definition other_uuid : AudioUuid :=
  {| timeLow := 9; timeMid := 9; timeHiAndVersion := 9; clockSeq := 9;
     node := [] |}.

(** A new instance, and an instance that owns an enabled context. *)
Definition fresh : DynamicsProcessingImpl := make_DynamicsProcessingImpl.

Definition running_context : context :=
  {| enabled := true; pending := true; config := Some common_float; arch := 3;
     bands := [10; 20]; gain := [5]; fmq := 1 |}.

Definition running : DynamicsProcessingImpl :=
  mkImpl PROCESSING (Some running_context) true.

End Sample.

(** * Vocabulary of the statements *)

Section Vocabulary.

Context {P : Parcelables} {E : DynamicsProcessingContext}.

(** The input and output of [common] are both 32-bit float PCM. *)
Definition float32_in_out (common : Parameter_Common) : Prop :=
  pcm (format (base (input common))) = FLOAT_32_BIT /\
  pcm (format (base (output common))) = FLOAT_32_BIT.

(** The status [st] answers the return code [rc] of a setter: ok exactly
    when the setter succeeded, [EX_ILLEGAL_ARGUMENT] when it did not. *)
Definition answers (st : ScopedAStatus) (rc : RetCode) : Prop :=
  (isOk st = true <-> rc = SUCCESS) /\
  (rc = SUCCESS -> st = ScopedAStatus_ok) /\
  (rc <> SUCCESS -> getExceptionCode st = EX_ILLEGAL_ARGUMENT).

(** [setParameterSpecific] on the payload [p] makes the one context call
    [c], leaves the context as that call left it ([r] is what the call
    returns on the context of [s]), and its status answers the return
    code. *)
Definition forwarded (s : DynamicsProcessingImpl) (p : DynamicsProcessing)
    (c : ContextCall) (r : RetCode * Ctx) : Prop :=
  exists st,
    setParameterSpecific (Specific_dynamicsProcessing p) s =
      Some (st, set_context (Some (snd r)) s, [EvContext c]) /\
    answers st (fst r).

(** [getParameterDynamicsProcessing] on [tag] makes the one context call
    [c], writes [value] under the dynamics-processing tag into [*specific],
    returns ok and leaves the instance as it was. *)
Definition fetched (s : DynamicsProcessingImpl) (specific : Parameter_Specific)
    (tag : DynamicsProcessing_Tag) (c : ContextCall) (value : DynamicsProcessing)
  : Prop :=
  getParameterDynamicsProcessing tag specific s =
    Some ((ScopedAStatus_ok, Specific_dynamicsProcessing value), s, [EvContext c]).

(** An assignment to [mState]. *)
Definition is_state_write (e : Event) : bool :=
  match e with
  | EvState _ => true
  | _ => false
  end.

(** The parameter that [open] applies: the given one, or the engine
    architecture that the context [c] reports. *)
Definition specific_or_default (specific : option Parameter_Specific) (c : Ctx)
  : Parameter_Specific :=
  match specific with
  | Some value => value
  | None => Specific_dynamicsProcessing
              (make_engineArchitecture (getEngineArchitecture c))
  end.

(** The events of reading that default. *)
Definition default_lookup (specific : option Parameter_Specific) : list Event :=
  match specific with
  | Some _ => []
  | None => [EvContext call_getEngineArchitecture]
  end.

(** The instance has a context. *)
Definition has_context (s : DynamicsProcessingImpl) : bool :=
  negb (is_null (mContext s)).

(** A call through the context pointer. *)
Definition is_context_call (e : Event) : bool :=
  match e with
  | EvContext _ => true
  | _ => false
  end.

(** The message [open] attaches when the specific parameter is refused:
    that of the given parameter, or that of the default one. *)
Definition refusal_message (specific : option Parameter_Specific) : string :=
  match specific with
  | Some _ => "setSpecParamErr"
  | None => "setDefaultEngineErr"
  end.

(** The format test at the head of [open]. *)
Definition not_32_bit_float (common : Parameter_Common) : bool :=
  negb (PcmType_eqb (pcm (format (base (input common))))
                    (pcm (format (base (output common))))) ||
  negb (PcmType_eqb (pcm (format (base (input common)))) FLOAT_32_BIT).

(** A law a context may satisfy: what a setter accepted, the getter
    reports. *)
Definition reads_back {A} (setter : A -> Ctx -> RetCode * Ctx)
    (getter : Ctx -> A) : Prop :=
  forall v x x', setter v x = (SUCCESS, x') -> getter x' = v.

(** [setParameterSpecific] on the payload [p] followed by
    [getParameterDynamicsProcessing] on [tag] gives back [p]: whenever the
    first is ok on [s], the second, on the instance the first left,
    writes [p] under the dynamics-processing tag and returns ok. *)
Definition set_then_get (s : DynamicsProcessingImpl) (p : DynamicsProcessing)
    (tag : DynamicsProcessing_Tag) : Prop :=
  forall st s' e specific,
    setParameterSpecific (Specific_dynamicsProcessing p) s = Some (st, s', e) ->
    isOk st = true ->
    exists e',
      getParameterDynamicsProcessing tag specific s' =
        Some ((ScopedAStatus_ok, Specific_dynamicsProcessing p), s', e').

(** [param.getTag()]. *)
Definition tag_of (p : DynamicsProcessing) : DynamicsProcessing_Tag :=
  match p with
  | make_vendorExtension _ => vendorExtension
  | make_engineArchitecture _ => engineArchitecture
  | make_preEq _ => preEq
  | make_postEq _ => postEq
  | make_preEqBand _ => preEqBand
  | make_postEqBand _ => postEqBand
  | make_mbc _ => mbc
  | make_mbcBand _ => mbcBand
  | make_limiter _ => limiter
  | make_inputGain _ => inputGain
  end.

(** A context in which each of the nine getters reads back what its
    setter accepted. *)
Definition context_reads_back : Prop :=
  reads_back setEngineArchitecture getEngineArchitecture /\
  reads_back setPreEq getPreEq /\
  reads_back setPostEq getPostEq /\
  reads_back setPreEqBand getPreEqBand /\
  reads_back setPostEqBand getPostEqBand /\
  reads_back setMbc getMbc /\
  reads_back setMbcBand getMbcBand /\
  reads_back setLimiter getLimiter /\
  reads_back setInputGain getInputGain.

(** The context [open] configures: the one the instance has, or a new one
    made from [common]. *)
Definition context_or_new (common : Parameter_Common)
    (s : DynamicsProcessingImpl) : Ctx :=
  match mContext s with
  | Some x => x
  | None => makeContext 1 common
  end.

(** The events of getting that context. *)
Definition context_or_new_events (common : Parameter_Common)
    (s : DynamicsProcessingImpl) : list Event :=
  match mContext s with
  | Some _ => []
  | None => [EvMakeContext 1 common]
  end.

End Vocabulary.

(** ** Running a method body *)

Ltac unfold_body :=
  unfold method, result, call, bind, pure, leave, read_mContext, read_mState,
    write_mState, through_mContext, const_call, void_call, get_or_abort,
    make_shared_mContext, reset_mContext,
    RETURN_IF_ASTATUS_NOT_OK, RETURN_OK_IF, RETURN_IF, RETURN_VALUE_IF,
    status_only, leaving.

(** Unfold the body, then compute with the facts at hand. *)
Ltac run_with H := unfold_body; cbn; repeat (rewrite H; cbn).

(** Take the hypotheses apart, then close the goal. *)
Ltac open_up :=
  repeat match goal with
  | H : exists _, _ |- _ => destruct H
  | H : _ /\ _ |- _ => destruct H
  | H : _ \/ _ |- _ => destruct H
  end.

Ltac settle := open_up; try discriminate; try congruence; eauto 10.

(** * Properties *)

Section Properties.

Context {P : Parcelables} {E : DynamicsProcessingContext}.

(** ** Equality tests *)

Lemma AudioUuid_eqb_eq (a b : AudioUuid) : AudioUuid_eqb a b = true <-> a = b.
Proof.
  unfold AudioUuid_eqb. split.
  - intros H.
    destruct (list_eq_dec Z.eq_dec (node a) (node b)) as [Hn | Hn].
    + repeat (apply andb_prop in H; destruct H as [H ?]).
      destruct a, b; simpl in *.
      apply Z.eqb_eq in H; repeat match goal with
        | [ K : (_ =? _) = true |- _ ] => apply Z.eqb_eq in K end.
      congruence.
    + rewrite andb_false_r in H. discriminate.
  - intros ->. rewrite !Z.eqb_refl.
    destruct (list_eq_dec Z.eq_dec (node b) (node b)); [reflexivity | congruence].
Qed.

Lemma uuid_not_supported_false (p : option AudioUuid) :
  uuid_not_supported p = false <-> p = Some kDynamicsProcessingImplUUID.
Proof.
  unfold uuid_not_supported. destruct p as [u |].
  - rewrite negb_false_iff, AudioUuid_eqb_eq. split; congruence.
  - split; discriminate.
Qed.

Lemma uuid_not_supported_true (p : option AudioUuid) :
  uuid_not_supported p = true <->
  p = None \/ exists u, p = Some u /\ u <> kDynamicsProcessingImplUUID.
Proof.
  unfold uuid_not_supported. destruct p as [u |].
  - rewrite negb_true_iff. split.
    + intros H. right. exists u. split; [reflexivity |].
      intros ->. rewrite (proj2 (AudioUuid_eqb_eq _ _) eq_refl) in H. discriminate.
    + intros [H | [u' [H Hne]]]; [discriminate |]. inversion H; subst u'.
      destruct (AudioUuid_eqb u kDynamicsProcessingImplUUID) eqn:Heq;
        [| reflexivity].
      apply AudioUuid_eqb_eq in Heq. contradiction.
  - split; [intros _; left; reflexivity | reflexivity].
Qed.

Lemma RetCode_eqb_eq (a b : RetCode) : RetCode_eqb a b = true <-> a = b.
Proof. destruct a, b; simpl; split; congruence. Qed.

Lemma State_eqb_eq (a b : State) : State_eqb a b = true <-> a = b.
Proof. destruct a, b; simpl; split; congruence. Qed.

Lemma PcmType_eqb_eq (a b : PcmType) : PcmType_eqb a b = true <-> a = b.
Proof. destruct a, b; simpl; split; congruence. Qed.

Lemma set_context_same (s : DynamicsProcessingImpl) :
  set_context (mContext s) s = s.
Proof. destruct s; reflexivity. Qed.

(** ** Processing *)

(** C1. [effectProcessImpl] on an instance with a context returns the
    status that [mContext->lvmProcess(in, out, samples)] returns, and its
    only event is that call; on an instance without a context it returns
    the status [{EX_NULL_POINTER, 0, 0}], calls nothing and changes
    nothing. *)
Theorem effectProcessImpl_delegates :
  forall (s : DynamicsProcessingImpl) (in_ out : Buffer) (samples : Z),
    (forall c st i o c',
        mContext s = Some c ->
        lvmProcess in_ out samples c = (st, i, o, c') ->
        effectProcessImpl in_ out samples s =
          Some ((st, i, o), set_context (Some c') s,
                [EvContext (call_lvmProcess in_ out samples)])) /\
    (mContext s = None ->
     effectProcessImpl in_ out samples s =
       Some ((mkIEffectStatus EX_NULL_POINTER 0 0, in_, out), s, [])).
Proof.
  intros s in_ out samples. split.
  - intros c st i o c' Hc Hrun.
    unfold effectProcessImpl. run_with Hc. rewrite Hrun. reflexivity.
  - intros Hc.
    unfold effectProcessImpl. run_with Hc. reflexivity.
Qed.

(** ** Context life cycle *)

Lemma createContext_existing (s : DynamicsProcessingImpl) (c : Ctx)
    (common : Parameter_Common) :
  mContext s = Some c -> createContext common s = Some (Some c, s, []).
Proof. intros Hc. unfold createContext. run_with Hc. reflexivity. Qed.

Lemma createContext_new (s : DynamicsProcessingImpl) (common : Parameter_Common) :
  mContext s = None ->
  createContext common s =
    Some (Some (makeContext 1 common),
          set_context (Some (makeContext 1 common)) s,
          [EvMakeContext 1 common]).
Proof. intros Hc. unfold createContext. run_with Hc. reflexivity. Qed.

Lemma releaseContext_existing (s : DynamicsProcessingImpl) (c : Ctx) :
  mContext s = Some c ->
  releaseContext s =
    Some (SUCCESS, set_context None s,
          [EvContext call_disable; EvContext call_resetBuffer;
           EvResetContext (resetBuffer (disable c))]).
Proof. intros Hc. unfold releaseContext. run_with Hc. reflexivity. Qed.

Lemma releaseContext_none (s : DynamicsProcessingImpl) :
  mContext s = None -> releaseContext s = Some (SUCCESS, s, []).
Proof. intros Hc. unfold releaseContext. run_with Hc. reflexivity. Qed.

(** C10. [createContext] on an instance that has a context returns that
    context, changes nothing and creates nothing; on an instance without
    one it makes a context from the common parameters (with status queue
    depth 1), stores it in [mContext] and returns it.  A second call,
    whatever its argument, returns the context of the first and changes
    nothing.  [releaseContext] returns [RetCode::SUCCESS] on every
    instance, and on an instance without a context it does nothing else. *)
Theorem createContext_idempotent :
  forall (s : DynamicsProcessingImpl) (common : Parameter_Common),
    (forall c, mContext s = Some c ->
               createContext common s = Some (Some c, s, [])) /\
    (mContext s = None ->
     createContext common s =
       Some (Some (makeContext 1 common),
             set_context (Some (makeContext 1 common)) s,
             [EvMakeContext 1 common])) /\
    (forall common', exists c s1 e1,
        createContext common s = Some (Some c, s1, e1) /\
        mContext s1 = Some c /\
        createContext common' s1 = Some (Some c, s1, [])) /\
    (exists s' e, releaseContext s = Some (SUCCESS, s', e) /\ mContext s' = None) /\
    (mContext s = None -> releaseContext s = Some (SUCCESS, s, [])).
Proof.
  intros s common. repeat split.
  - intros c Hc. now apply createContext_existing.
  - now apply createContext_new.
  - intros common'. destruct (mContext s) as [c |] eqn:Hc.
    + exists c, s, [].
      split; [now apply createContext_existing |].
      split; [exact Hc | now apply createContext_existing].
    + exists (makeContext 1 common),
        (set_context (Some (makeContext 1 common)) s), [EvMakeContext 1 common].
      split; [now apply createContext_new |].
      split; [reflexivity | now apply createContext_existing].
  - destruct (mContext s) as [c |] eqn:Hc.
    + eexists _, _. split; [now apply releaseContext_existing with (c := c) |].
      reflexivity.
    + exists s, []. split; [now apply releaseContext_none | exact Hc].
  - now apply releaseContext_none.
Qed.

(** ** The exported entry points *)

(** C4. [createEffect] returns [EX_ILLEGAL_ARGUMENT], writes nothing and
    creates no instance when the UUID pointer is null, or the UUID is not
    [kDynamicsProcessingImplUUID], or the output pointer is null; in every
    other case it creates one [DynamicsProcessingImpl], stores it through
    the output pointer and returns [EX_NONE]. *)
Theorem createEffect_checks :
  forall (in_impl_uuid : option AudioUuid)
         (instanceSpp : option (option DynamicsProcessingImpl)),
    let rejected :=
      in_impl_uuid = None \/
      (exists u, in_impl_uuid = Some u /\ u <> kDynamicsProcessingImplUUID) \/
      instanceSpp = None in
    (rejected ->
     createEffect in_impl_uuid instanceSpp = (EX_ILLEGAL_ARGUMENT, instanceSpp, [])) /\
    (~ rejected ->
     createEffect in_impl_uuid instanceSpp =
       (EX_NONE, Some (Some make_DynamicsProcessingImpl), [EvMakeEffect])).
Proof.
  intros u slot rejected. subst rejected. unfold createEffect. split.
  - intros [H | [H | H]].
    + subst u. reflexivity.
    + rewrite (proj2 (uuid_not_supported_true u)); [reflexivity |].
      right. exact H.
    + subst slot. destruct (uuid_not_supported u); reflexivity.
  - intros Hn. destruct (uuid_not_supported u) eqn:Hu.
    + exfalso. apply Hn. apply uuid_not_supported_true in Hu.
      destruct Hu as [Hu | Hu]; [left | right; left]; exact Hu.
    + destruct slot as [old |]; [reflexivity |].
      exfalso. apply Hn. right. right. reflexivity.
Qed.

(** [queryEffect] where it is defined.  It returns [EX_ILLEGAL_ARGUMENT]
    and writes nothing when the UUID pointer is null or the UUID is not
    [kDynamicsProcessingImplUUID], whatever [_aidl_return] is; with the
    supported UUID and a non-null [_aidl_return] it writes [kDescriptor]
    into [*_aidl_return] and returns [EX_NONE].  So for a non-null
    [_aidl_return] the result is [EX_ILLEGAL_ARGUMENT] exactly when the
    UUID is rejected.  [kDescriptor] carries the name "DynamicsProcessing"
    and the cut-off range 220 to 20000. *)
Theorem queryEffect_descriptor :
  forall (in_impl_uuid : option AudioUuid),
    let rejected :=
      in_impl_uuid = None \/
      (exists u, in_impl_uuid = Some u /\ u <> kDynamicsProcessingImplUUID) in
    (rejected -> forall _aidl_return,
        queryEffect in_impl_uuid _aidl_return =
          Some (EX_ILLEGAL_ARGUMENT, _aidl_return)) /\
    (~ rejected -> forall d,
        queryEffect in_impl_uuid (Some d) = Some (EX_NONE, Some kDescriptor)) /\
    (forall d, exists code after,
        queryEffect in_impl_uuid (Some d) = Some (code, after) /\
        (code = EX_ILLEGAL_ARGUMENT <-> rejected)) /\
    name (common kDescriptor) = "DynamicsProcessing"%string /\
    capability kDescriptor =
      Capability_dynamicsProcessing
        {| minCutOffFreq := 220; maxCutOffFreq := 20000 |}.
Proof.
  intros u rejected. subst rejected. unfold queryEffect.
  repeat split; try reflexivity.
  - intros H ret. rewrite (proj2 (uuid_not_supported_true u) H). reflexivity.
  - intros Hn d. destruct (uuid_not_supported u) eqn:Hu; [| reflexivity].
    exfalso. apply Hn. now apply uuid_not_supported_true.
  - intros d. destruct (uuid_not_supported u) eqn:Hu.
    + exists EX_ILLEGAL_ARGUMENT, (Some d). split; [reflexivity |].
      split; [intros _; now apply uuid_not_supported_true | reflexivity].
    + exists EX_NONE, (Some kDescriptor). split; [reflexivity |].
      split; [discriminate |].
      intros H. apply uuid_not_supported_true in H. congruence.
Qed.

(** ** Setting parameters *)

Lemma answers_of_code (rc : RetCode) (message : string) :
  answers (if negb (RetCode_eqb rc SUCCESS)
           then fromExceptionCodeWithMessage EX_ILLEGAL_ARGUMENT message
           else ScopedAStatus_ok) rc.
Proof. destruct rc; cbv; repeat split; intros; congruence. Qed.

(** What one arm of the switch does on an instance with a context. *)
Lemma set_through_mContext_runs (s : DynamicsProcessingImpl) (x : Ctx)
    (c : ContextCall) (setter : Ctx -> RetCode * Ctx) (message : string) :
  mContext s = Some x ->
  method (set_through_mContext c setter message) s =
    Some (if negb (RetCode_eqb (fst (setter x)) SUCCESS)
          then fromExceptionCodeWithMessage EX_ILLEGAL_ARGUMENT message
          else ScopedAStatus_ok,
          set_context (Some (snd (setter x))) s, [EvContext c]).
Proof.
  intros Hx. unfold set_through_mContext. run_with Hx.
  destruct (setter x) as [rc x']. cbn.
  destruct (RetCode_eqb rc SUCCESS); reflexivity.
Qed.

Lemma setParameterSpecific_arm (s : DynamicsProcessingImpl) (x : Ctx)
    (p : DynamicsProcessing) (c : ContextCall) (setter : Ctx -> RetCode * Ctx)
    (message : string) :
  mContext s = Some x ->
  setParameterSpecific (Specific_dynamicsProcessing p) s =
    method (set_through_mContext c setter message) s ->
  forwarded s p c (setter x).
Proof.
  intros Hx Harm. unfold forwarded.
  rewrite Harm, (set_through_mContext_runs s c setter message Hx).
  eexists. split; [reflexivity | apply answers_of_code].
Qed.

Lemma setParameterSpecific_enters (s : DynamicsProcessingImpl) (x : Ctx)
    (p : DynamicsProcessing) (body : M ScopedAStatus ScopedAStatus) :
  mContext s = Some x ->
  (match p with
   | make_engineArchitecture v =>
       set_through_mContext (call_setEngineArchitecture v)
         (setEngineArchitecture v) "setEngineArchitectureFailed"
   | make_preEq v =>
       set_through_mContext (call_setPreEq v) (setPreEq v) "setPreEqFailed"
   | make_postEq v =>
       set_through_mContext (call_setPostEq v) (setPostEq v) "setPostEqFailed"
   | make_preEqBand v =>
       set_through_mContext (call_setPreEqBand v) (setPreEqBand v)
         "setPreEqBandFailed"
   | make_postEqBand v =>
       set_through_mContext (call_setPostEqBand v) (setPostEqBand v)
         "setPostEqBandFailed"
   | make_mbc v =>
       set_through_mContext (call_setMbc v) (setMbc v) "setMbcFailed"
   | make_mbcBand v =>
       set_through_mContext (call_setMbcBand v) (setMbcBand v) "setMbcBandFailed"
   | make_limiter v =>
       set_through_mContext (call_setLimiter v) (setLimiter v) "setLimiterFailed"
   | make_inputGain v =>
       set_through_mContext (call_setInputGain v) (setInputGain v)
         "setInputGainFailed"
   | make_vendorExtension _ =>
       pure (fromExceptionCodeWithMessage EX_ILLEGAL_ARGUMENT
               "DPVendorExtensionTagNotSupported")
   end) = body ->
  setParameterSpecific (Specific_dynamicsProcessing p) s = method body s.
Proof.
  intros Hx <-. unfold setParameterSpecific.
  unfold method at 1 2, bind, RETURN_IF, RETURN_VALUE_IF, read_mContext,
    get_or_abort, pure, leave.
  cbn. rewrite Hx. cbn.
  match goal with
  | |- context [match ?m s with _ => _ end] => destruct (m s) as [[[[a | r] s1] e1] |]
  end; reflexivity.
Qed.

(** C2. [setParameterSpecific] fails with [EX_ILLEGAL_ARGUMENT] when the
    outer tag is not [dynamicsProcessing]; otherwise, on an instance
    without a context, it fails with [EX_NULL_POINTER]; otherwise it
    forwards the payload of the inner tag to the setter of that tag and
    to no other, and its status is ok exactly when the setter returns
    [RetCode::SUCCESS] and [EX_ILLEGAL_ARGUMENT] when it does not; the
    [vendorExtension] tag is rejected with [EX_ILLEGAL_ARGUMENT] whatever
    the payload and the context.  On every instance, with or without a
    context, the [vendorExtension] tag is refused, reaches no setter and
    changes nothing. *)
Theorem setParameterSpecific_dispatch :
  forall (s : DynamicsProcessingImpl),
    (forall e,
        setParameterSpecific (Specific_other e) s =
          Some (fromExceptionCodeWithMessage EX_ILLEGAL_ARGUMENT
                  "EffectNotSupported", s, [])) /\
    (mContext s = None -> forall p,
        setParameterSpecific (Specific_dynamicsProcessing p) s =
          Some (fromExceptionCodeWithMessage EX_NULL_POINTER "nullContext",
                s, [])) /\
    (forall x, mContext s = Some x ->
       (forall v, forwarded s (make_engineArchitecture v)
                    (call_setEngineArchitecture v) (setEngineArchitecture v x)) /\
       (forall v, forwarded s (make_preEq v) (call_setPreEq v) (setPreEq v x)) /\
       (forall v, forwarded s (make_postEq v) (call_setPostEq v) (setPostEq v x)) /\
       (forall v, forwarded s (make_preEqBand v) (call_setPreEqBand v)
                    (setPreEqBand v x)) /\
       (forall v, forwarded s (make_postEqBand v) (call_setPostEqBand v)
                    (setPostEqBand v x)) /\
       (forall v, forwarded s (make_mbc v) (call_setMbc v) (setMbc v x)) /\
       (forall v, forwarded s (make_mbcBand v) (call_setMbcBand v)
                    (setMbcBand v x)) /\
       (forall v, forwarded s (make_limiter v) (call_setLimiter v)
                    (setLimiter v x)) /\
       (forall v, forwarded s (make_inputGain v) (call_setInputGain v)
                    (setInputGain v x)) /\
       (forall v,
           setParameterSpecific
             (Specific_dynamicsProcessing (make_vendorExtension v)) s =
             Some (fromExceptionCodeWithMessage EX_ILLEGAL_ARGUMENT
                     "DPVendorExtensionTagNotSupported", s, []))) /\
    (forall v, exists st,
        setParameterSpecific
          (Specific_dynamicsProcessing (make_vendorExtension v)) s =
          Some (st, s, []) /\
        isOk st = false).
Proof.
  intros s.
  assert (Hvendor : forall x v, mContext s = Some x ->
             setParameterSpecific
               (Specific_dynamicsProcessing (make_vendorExtension v)) s =
               Some (fromExceptionCodeWithMessage EX_ILLEGAL_ARGUMENT
                       "DPVendorExtensionTagNotSupported", s, [])).
  { intros x v Hx.
    rewrite (setParameterSpecific_enters s (make_vendorExtension v) Hx eq_refl).
    reflexivity. }
  assert (Hnull : mContext s = None -> forall p,
             setParameterSpecific (Specific_dynamicsProcessing p) s =
               Some (fromExceptionCodeWithMessage EX_NULL_POINTER "nullContext",
                     s, [])).
  { intros Hx p. unfold setParameterSpecific. run_with Hx. reflexivity. }
  split; [| split; [exact Hnull | split]].
  - intros e. unfold setParameterSpecific. unfold_body. reflexivity.
  - intros x Hx.
    repeat match goal with
    | |- _ /\ _ => split
    | |- forall v, forwarded _ _ _ _ =>
        intros v; eapply setParameterSpecific_arm; [exact Hx |];
        apply (setParameterSpecific_enters s _ Hx); reflexivity
    end.
    intros v. now apply Hvendor with (x := x).
  - intros v. destruct (mContext s) as [x |] eqn:Hx.
    + eexists. split; [now apply Hvendor with (x := x) | reflexivity].
    + eexists. split; [now apply Hnull | reflexivity].
Qed.

(** ** Getting parameters *)

Lemma getParameterDynamicsProcessing_null (s : DynamicsProcessingImpl)
    (tag : DynamicsProcessing_Tag) (specific : Parameter_Specific) :
  mContext s = None ->
  getParameterDynamicsProcessing tag specific s =
    Some ((fromExceptionCodeWithMessage EX_NULL_POINTER "nullContext", specific),
          s, []).
Proof.
  intros Hx. unfold getParameterDynamicsProcessing. run_with Hx. reflexivity.
Qed.

Lemma getParameterDynamicsProcessing_vendorExtension
    (s : DynamicsProcessingImpl) (x : Ctx) (specific : Parameter_Specific) :
  mContext s = Some x ->
  getParameterDynamicsProcessing vendorExtension specific s =
    Some ((fromExceptionCodeWithMessage EX_ILLEGAL_ARGUMENT
             "DPVendorExtensionTagInWrongId", specific), s, []).
Proof.
  intros Hx. unfold getParameterDynamicsProcessing. run_with Hx. reflexivity.
Qed.

(** C3, as the code has it.  On an instance with a context,
    [getParameterDynamicsProcessing] on each of the nine supported tags
    calls the getter of that tag, writes its value under the
    [dynamicsProcessing] tag into [*specific] and returns ok, and on the
    [vendorExtension] tag it returns [EX_ILLEGAL_ARGUMENT] and leaves
    [*specific] as it was.  On an instance without a context every tag,
    [vendorExtension] too, yields [EX_NULL_POINTER] with [*specific] as it
    was. *)
Theorem getParameterDynamicsProcessing_dispatch :
  forall (s : DynamicsProcessingImpl) (specific : Parameter_Specific),
    (forall x, mContext s = Some x ->
       fetched s specific engineArchitecture call_getEngineArchitecture
         (make_engineArchitecture (getEngineArchitecture x)) /\
       fetched s specific preEq call_getPreEq (make_preEq (getPreEq x)) /\
       fetched s specific postEq call_getPostEq (make_postEq (getPostEq x)) /\
       fetched s specific preEqBand call_getPreEqBand
         (make_preEqBand (getPreEqBand x)) /\
       fetched s specific postEqBand call_getPostEqBand
         (make_postEqBand (getPostEqBand x)) /\
       fetched s specific mbc call_getMbc (make_mbc (getMbc x)) /\
       fetched s specific mbcBand call_getMbcBand (make_mbcBand (getMbcBand x)) /\
       fetched s specific limiter call_getLimiter (make_limiter (getLimiter x)) /\
       fetched s specific inputGain call_getInputGain
         (make_inputGain (getInputGain x)) /\
       getParameterDynamicsProcessing vendorExtension specific s =
         Some ((fromExceptionCodeWithMessage EX_ILLEGAL_ARGUMENT
                  "DPVendorExtensionTagInWrongId", specific), s, [])) /\
    (mContext s = None -> forall tag,
        getParameterDynamicsProcessing tag specific s =
          Some ((fromExceptionCodeWithMessage EX_NULL_POINTER "nullContext",
                 specific), s, [])).
Proof.
  intros s specific. split.
  - intros x Hx.
    repeat match goal with
    | |- _ /\ _ => split
    | |- fetched _ _ _ _ _ =>
        unfold fetched, getParameterDynamicsProcessing, get_through_mContext;
        run_with Hx; rewrite <- Hx, set_context_same; reflexivity
    end.
    now apply getParameterDynamicsProcessing_vendorExtension with (x := x).
  - intros Hx tag. now apply getParameterDynamicsProcessing_null.
Qed.

(** C7. [getParameterSpecific] fails with [EX_NULL_POINTER] when the
    output pointer is null; otherwise with [EX_ILLEGAL_ARGUMENT] when the
    tag of the id is not [dynamicsProcessingTag]; otherwise with
    [EX_ILLEGAL_ARGUMENT] when the [DynamicsProcessing::Id] carries the
    [vendorExtensionTag]; in these three cases it touches nothing.  An id
    that carries a [commonTag] is handed to
    [getParameterDynamicsProcessing], whose status and output are the
    result; and a call that made any context call had such an id. *)
Theorem getParameterSpecific_dispatch :
  forall (s : DynamicsProcessingImpl),
    (forall id,
        getParameterSpecific id None s =
          Some ((fromExceptionCodeWithMessage EX_NULL_POINTER "nullPtr", None),
                s, [])) /\
    (forall id specific,
        (forall dpId, id <> Id_dynamicsProcessingTag dpId) ->
        getParameterSpecific id (Some specific) s =
          Some ((fromExceptionCodeWithMessage EX_ILLEGAL_ARGUMENT "wrongIdTag",
                 Some specific), s, [])) /\
    (forall v specific,
        getParameterSpecific (Id_dynamicsProcessingTag (Id_vendorExtensionTag v))
          (Some specific) s =
          Some ((fromExceptionCodeWithMessage EX_ILLEGAL_ARGUMENT
                   "DPVendorExtensionIdNotSupported", Some specific), s, [])) /\
    (forall tag specific,
        getParameterSpecific (Id_dynamicsProcessingTag (Id_commonTag tag))
          (Some specific) s =
          match getParameterDynamicsProcessing tag specific s with
          | Some ((st, after), s', e) => Some ((st, Some after), s', e)
          | None => None
          end) /\
    (forall id specific r s' e,
        getParameterSpecific id specific s = Some (r, s', e) ->
        e <> [] ->
        exists tag, id = Id_dynamicsProcessingTag (Id_commonTag tag)).
Proof.
  intros s.
  assert (Hnull : forall id,
             getParameterSpecific id None s =
               Some ((fromExceptionCodeWithMessage EX_NULL_POINTER "nullPtr", None),
                     s, [])).
  { intros id. unfold getParameterSpecific. unfold_body. reflexivity. }
  assert (Hother : forall id specific,
             (forall dpId, id <> Id_dynamicsProcessingTag dpId) ->
             getParameterSpecific id (Some specific) s =
               Some ((fromExceptionCodeWithMessage EX_ILLEGAL_ARGUMENT "wrongIdTag",
                      Some specific), s, [])).
  { intros id specific Hid. unfold getParameterSpecific. unfold_body.
    destruct id as [dpId | e |]; [exfalso; now apply (Hid dpId) | |]; reflexivity. }
  assert (Hvendor : forall v specific,
             getParameterSpecific
               (Id_dynamicsProcessingTag (Id_vendorExtensionTag v))
               (Some specific) s =
               Some ((fromExceptionCodeWithMessage EX_ILLEGAL_ARGUMENT
                        "DPVendorExtensionIdNotSupported", Some specific), s, [])).
  { intros v specific. unfold getParameterSpecific. unfold_body. reflexivity. }
  repeat split; try assumption.
  - intros tag specific. unfold getParameterSpecific.
    unfold method at 1, call, bind, RETURN_IF, RETURN_VALUE_IF, get_or_abort,
      pure, leave, leaving.
    cbn.
    destruct (getParameterDynamicsProcessing tag specific s)
      as [[[[st after] s'] e] |]; cbn; [| reflexivity].
    rewrite app_nil_r. reflexivity.
  - intros id specific r s' e Hrun Hne.
    destruct specific as [specific |].
    + destruct id as [[v | tag] | o |].
      * rewrite Hvendor in Hrun. inversion Hrun; subst. contradiction.
      * exists tag. reflexivity.
      * rewrite Hother in Hrun by discriminate.
        inversion Hrun; subst. contradiction.
      * rewrite Hother in Hrun by discriminate.
        inversion Hrun; subst. contradiction.
    + rewrite Hnull in Hrun. inversion Hrun; subst. contradiction.
Qed.

(** ** Opening the effect *)

Lemma not_float32_in_out (common : Parameter_Common) :
  pcm (format (base (input common))) <> pcm (format (base (output common))) \/
  pcm (format (base (input common))) <> FLOAT_32_BIT ->
  negb (PcmType_eqb (pcm (format (base (input common))))
                    (pcm (format (base (output common))))) ||
  negb (PcmType_eqb (pcm (format (base (input common)))) FLOAT_32_BIT) = true.
Proof.
  intros [H | H]; apply orb_true_iff; [left | right];
    apply negb_true_iff;
    match goal with
    | |- PcmType_eqb ?a ?b = false =>
        destruct (PcmType_eqb a b) eqn:Heq; [| reflexivity];
        apply PcmType_eqb_eq in Heq; contradiction
    end.
Qed.

Lemma float32_in_out_passes (common : Parameter_Common) :
  float32_in_out common ->
  negb (PcmType_eqb (pcm (format (base (input common))))
                    (pcm (format (base (output common))))) ||
  negb (PcmType_eqb (pcm (format (base (input common)))) FLOAT_32_BIT) = false.
Proof. intros [-> ->]. reflexivity. Qed.

(** C8. When the input PCM type of [common] differs from its output PCM
    type, or is not [FLOAT_32_BIT], [open] returns [EX_ILLEGAL_ARGUMENT]
    in every state of the instance; the state, the context, the worker and
    [*ret] are as they were, and nothing was called. *)
Theorem open_rejects_non_float :
  forall (s : DynamicsProcessingImpl) (common : Parameter_Common)
         (specific : option Parameter_Specific) (ret : option OpenEffectReturn),
    pcm (format (base (input common))) <> pcm (format (base (output common))) \/
    pcm (format (base (input common))) <> FLOAT_32_BIT ->
    open common specific ret s =
      Some ((fromExceptionCodeWithMessage EX_ILLEGAL_ARGUMENT
               "dataMustBe32BitsFloat", ret), s, []).
Proof.
  intros s common specific ret H. apply not_float32_in_out in H.
  unfold open. unfold method, bind at 1, RETURN_IF at 1, RETURN_VALUE_IF at 1.
  rewrite H. reflexivity.
Qed.

(** C9. With 32-bit float input and output, [open] on an instance whose
    state is not [INIT] returns ok at once: the state, the context, the
    worker and [*ret] are as they were, and nothing was called. *)
Theorem open_again_is_noop :
  forall (s : DynamicsProcessingImpl) (common : Parameter_Common)
         (specific : option Parameter_Specific) (ret : option OpenEffectReturn),
    float32_in_out common ->
    mState s <> INIT ->
    open common specific ret s = Some ((ScopedAStatus_ok, ret), s, []).
Proof.
  intros s common specific ret Hf Hs. apply float32_in_out_passes in Hf.
  assert (Hst : negb (State_eqb (mState s) INIT) = true).
  { destruct (mState s); [contradiction | reflexivity | reflexivity]. }
  unfold open.
  unfold method, bind at 1, RETURN_IF at 1, RETURN_VALUE_IF at 1.
  rewrite Hf. unfold pure at 1, bind at 1, bind at 1, read_mState.
  unfold RETURN_OK_IF, RETURN_VALUE_IF at 1. rewrite Hst. reflexivity.
Qed.

(** Whatever [setParameterSpecific] is given, it returns; it writes
    neither [mState] nor the worker, and after an ok status the instance
    has a context. *)
Lemma setParameterSpecific_outcome (specific : Parameter_Specific)
    (s : DynamicsProcessingImpl) :
  exists st s' e,
    setParameterSpecific specific s = Some (st, s', e) /\
    mState s' = mState s /\
    mWorker s' = mWorker s /\
    existsb is_state_write e = false /\
    (isOk st = true -> exists x', mContext s' = Some x').
Proof.
  destruct specific as [p | o].
  - destruct (mContext s) as [x |] eqn:Hx.
    + destruct p;
        rewrite (setParameterSpecific_enters s _ Hx eq_refl);
        try (rewrite (set_through_mContext_runs s _ _ _ Hx);
             eexists _, _, _; split; [reflexivity |];
             repeat split; intros _; eexists; reflexivity).
      eexists _, _, _. split; [reflexivity |].
      repeat split. discriminate.
    + exists (fromExceptionCodeWithMessage EX_NULL_POINTER "nullContext"), s, [].
      split.
      * unfold setParameterSpecific. run_with Hx. reflexivity.
      * repeat split. discriminate.
  - exists (fromExceptionCodeWithMessage EX_ILLEGAL_ARGUMENT "EffectNotSupported"),
      s, [].
    split.
    + unfold setParameterSpecific. unfold_body. reflexivity.
    + repeat split. discriminate.
Qed.

(** [createContext] always returns a context, the one in [mContext]
    afterwards. *)
Lemma createContext_outcome (common : Parameter_Common)
    (s : DynamicsProcessingImpl) :
  exists x0 e0,
    createContext common s = Some (Some x0, set_context (Some x0) s, e0) /\
    existsb is_state_write e0 = false.
Proof.
  destruct (mContext s) as [x |] eqn:Hx.
  - exists x, []. rewrite (createContext_existing s common Hx).
    rewrite <- Hx, set_context_same. split; reflexivity.
  - exists (makeContext 1 common), [EvMakeContext 1 common].
    rewrite (createContext_new s common Hx). split; reflexivity.
Qed.

(** *** Running a body statement by statement *)

Lemma bind_next {R A B} (m : M R A) (f : A -> M R B)
    (s s1 : DynamicsProcessingImpl) (a : A) (e1 : list Event) :
  m s = Some (Next a, s1, e1) ->
  bind m f s =
    match f a s1 with
    | None => None
    | Some (fl, s2, e2) => Some (fl, s2, e1 ++ e2)
    end.
Proof. intros H. unfold bind. rewrite H. reflexivity. Qed.

Lemma bind_return {R A B} (m : M R A) (f : A -> M R B)
    (s s1 : DynamicsProcessingImpl) (r : R) (e1 : list Event) :
  m s = Some (Return r, s1, e1) ->
  bind m f s = Some (Return r, s1, e1).
Proof. intros H. unfold bind. rewrite H. reflexivity. Qed.

Lemma call_runs {R A} (m : Method A) (s s1 : DynamicsProcessingImpl) (a : A)
    (e : list Event) :
  m s = Some (a, s1, e) -> call (R := R) m s = Some (Next a, s1, e).
Proof. intros H. unfold call. rewrite H. reflexivity. Qed.

Lemma astatus_ok_passes {R} (k : ScopedAStatus -> R) (m : M R ScopedAStatus)
    (message : string) (s s1 : DynamicsProcessingImpl) (st : ScopedAStatus)
    (e : list Event) :
  m s = Some (Next st, s1, e) ->
  isOk st = true ->
  RETURN_IF_ASTATUS_NOT_OK k m message s = Some (Next tt, s1, e ++ []).
Proof.
  intros Hm Hok. unfold RETURN_IF_ASTATUS_NOT_OK.
  rewrite (bind_next _ _ _ Hm). unfold RETURN_VALUE_IF. rewrite Hok. reflexivity.
Qed.

Lemma astatus_not_ok_returns {R} (k : ScopedAStatus -> R) (m : M R ScopedAStatus)
    (message : string) (s s1 : DynamicsProcessingImpl) (st : ScopedAStatus)
    (e : list Event) :
  m s = Some (Next st, s1, e) ->
  isOk st = false ->
  RETURN_IF_ASTATUS_NOT_OK k m message s =
    Some (Return (k (fromExceptionCodeWithMessage (getExceptionCode st) message)),
          s1, e ++ []).
Proof.
  intros Hm Hok. unfold RETURN_IF_ASTATUS_NOT_OK.
  rewrite (bind_next _ _ _ Hm). unfold RETURN_VALUE_IF. rewrite Hok. reflexivity.
Qed.

Lemma existsb_state_write_app (e1 e2 : list Event) :
  existsb is_state_write e1 = false ->
  existsb is_state_write e2 = false ->
  existsb is_state_write (e1 ++ e2) = false.
Proof. intros H1 H2. rewrite existsb_app, H1, H2. reflexivity. Qed.


(** C6. When [open] is called in state [INIT] with 32-bit float input and
    output and returns ok, the state is [IDLE] afterwards and the instance
    has a context.  Before the one assignment to [mState], the common
    parameter was applied to the context with an ok status and then the
    given specific parameter, or the engine architecture that the context
    reports when none is given, was set with an ok status; no event before
    that assignment writes [mState].  [releaseContext] on an instance with
    a context disables the context, resets its buffer, and then resets
    [mContext], which releases the context in that condition. *)
Theorem open_reaches_idle_and_release_resets :
    (forall (s : DynamicsProcessingImpl) (common : Parameter_Common)
            (specific : option Parameter_Specific)
            (ret : option OpenEffectReturn) st ret' s' evs,
        mState s = INIT ->
        float32_in_out common ->
        open common specific ret s = Some ((st, ret'), s', evs) ->
        isOk st = true ->
        mState s' = IDLE /\
        exists x0 e0 stc x1 st2 s2 e2 x2,
          createContext common s = Some (Some x0, set_context (Some x0) s, e0) /\
          setCommon common x0 = (stc, x1) /\ isOk stc = true /\
          setParameterSpecific (specific_or_default specific x1)
            (set_context (Some x1) s) = Some (st2, s2, e2) /\
          isOk st2 = true /\
          mState s2 = INIT /\
          mContext s2 = Some x2 /\
          st = ScopedAStatus_ok /\
          ret' = fst (dupeFmq ret x2) /\
          mContext s' = Some (snd (dupeFmq ret x2)) /\
          createThread (Some (snd (dupeFmq ret x2))) kEffectName (mWorker s) =
            (SUCCESS, mWorker s') /\
          evs = (e0 ++ EvSetParameterCommon common ::
                   default_lookup specific ++ e2) ++
                [EvState IDLE; EvContext (call_dupeFmq ret);
                 EvCreateThread kEffectName] /\
          existsb is_state_write
            (e0 ++ EvSetParameterCommon common ::
               default_lookup specific ++ e2) = false) /\
    (forall (s : DynamicsProcessingImpl) (x : Ctx),
        mContext s = Some x ->
        releaseContext s =
          Some (SUCCESS, set_context None s,
                [EvContext call_disable; EvContext call_resetBuffer;
                 EvResetContext (resetBuffer (disable x))])).
Proof.
  split.
  - intros s common specific ret st ret' s' evs Hinit Hf Hopen Hok.
    apply float32_in_out_passes in Hf.
    destruct (createContext_outcome common s) as (x0 & e0 & Hcreate & He0).
    destruct (setCommon common x0) as [stc x1] eqn:Hcommon.
    assert (Hsetc : forall R, setParameterCommon (R := R) common (set_context (Some x0) s) =
              Some (Next stc, set_context (Some x1) s, [EvSetParameterCommon common])).
    { intros R. unfold setParameterCommon. cbn. rewrite Hcommon. reflexivity. }
    destruct (setParameterSpecific_outcome (specific_or_default specific x1)
                (set_context (Some x1) s))
      as (st2 & s2 & e2 & Hset & Hs2 & Hw2 & He2 & Hx2).
    unfold open, method in Hopen.
    erewrite bind_next in Hopen
      by (unfold RETURN_IF, RETURN_VALUE_IF; rewrite Hf; reflexivity).
    erewrite bind_next in Hopen by reflexivity.
    erewrite bind_next in Hopen
      by (unfold RETURN_OK_IF, RETURN_VALUE_IF; rewrite Hinit; reflexivity).
    erewrite bind_next in Hopen by (apply call_runs; exact Hcreate).
    erewrite bind_next in Hopen by reflexivity.
    destruct (isOk stc) eqn:Hstc.
    2:{ erewrite bind_return in Hopen
          by (eapply astatus_not_ok_returns; [apply Hsetc | exact Hstc]).
        cbn in Hopen. inversion Hopen; subst.
        unfold isOk in Hok, Hstc. cbn in Hok. congruence. }
    erewrite bind_next in Hopen
      by (eapply astatus_ok_passes; [apply Hsetc | exact Hstc]).
    assert (Hblock : exists msg,
      (match specific with
       | Some value =>
           RETURN_IF_ASTATUS_NOT_OK (leaving ret)
             (call (setParameterSpecific value)) "setSpecParamErr"
       | None =>
           bind (through_mContext call_getEngineArchitecture
                   (const_call getEngineArchitecture))
             (fun arch =>
                RETURN_IF_ASTATUS_NOT_OK (leaving ret)
                  (call (setParameterSpecific
                           (Specific_dynamicsProcessing
                              (make_engineArchitecture arch))))
                  "setDefaultEngineErr")
       end) (set_context (Some x1) s) =
      if isOk st2 then Some (Next tt, s2, default_lookup specific ++ e2 ++ [])
      else Some (Return (leaving ret
                  (fromExceptionCodeWithMessage (getExceptionCode st2) msg)), s2,
                  default_lookup specific ++ e2 ++ [])).
    { destruct specific as [value |]; cbn [specific_or_default default_lookup] in *;
        eexists.
      - destruct (isOk st2) eqn:Hst2.
        + erewrite astatus_ok_passes;
            [reflexivity | apply call_runs; exact Hset | exact Hst2].
        + erewrite astatus_not_ok_returns;
            [reflexivity | apply call_runs; exact Hset | exact Hst2].
      - erewrite bind_next by reflexivity.
        destruct (isOk st2) eqn:Hst2.
        + erewrite astatus_ok_passes;
            [reflexivity | apply call_runs; exact Hset | exact Hst2].
        + erewrite astatus_not_ok_returns;
            [reflexivity | apply call_runs; exact Hset | exact Hst2]. }
    destruct Hblock as [msg Hblock].
    destruct (isOk st2) eqn:Hst2.
    2:{ erewrite bind_return in Hopen by exact Hblock.
        cbn in Hopen. inversion Hopen; subst.
        unfold isOk in Hok, Hst2. cbn in Hok. congruence. }
    erewrite bind_next in Hopen by exact Hblock.
    erewrite bind_next in Hopen by reflexivity.
    destruct (Hx2 eq_refl) as [x2 Hctx2].
    destruct (dupeFmq ret x2) as [ret1 x3] eqn:Hdupe.
    erewrite bind_next in Hopen
      by (unfold through_mContext; cbn; rewrite Hctx2, Hdupe; reflexivity).
    destruct (createThread (Some x3) kEffectName (mWorker s2)) as [rc w] eqn:Hthread.
    erewrite bind_next in Hopen
      by (unfold createThread_with_mContext, getEffectName; cbn;
          rewrite Hthread; reflexivity).
    cbn in Hs2, Hw2. rewrite Hw2 in Hthread.
    assert (Hpre : existsb is_state_write
              (e0 ++ EvSetParameterCommon common ::
                 default_lookup specific ++ e2) = false).
    { apply existsb_state_write_app; [exact He0 |].
      change (existsb is_state_write (default_lookup specific ++ e2) = false).
      apply existsb_state_write_app; [destruct specific; reflexivity | exact He2]. }
    destruct rc; cbn in Hopen; inversion Hopen; subst; clear Hopen;
      try (cbn in Hok; discriminate Hok).
    split; [reflexivity |].
    exists x0, e0, stc, x1, st2, s2, e2, x2. rewrite Hdupe. cbn [fst snd].
    repeat match goal with |- _ /\ _ => split end;
      try reflexivity; try assumption.
    + congruence.
    + rewrite ?app_nil_r, <- ?app_assoc. cbn. rewrite <- ?app_assoc. reflexivity.
  - intros s x Hx. now apply releaseContext_existing.
Qed.

End Properties.

(** * Further properties

    What the methods do together, and what they never do. *)

Section Consequences.

Context {P : Parcelables} {E : DynamicsProcessingContext}.

(** ** What each method does, case by case *)

Lemma is_null_false {A} (p : option A) :
  is_null p = false -> exists a, p = Some a.
Proof. destruct p as [a |]; [intros _; now exists a | discriminate]. Qed.

Lemma has_context_true (s : DynamicsProcessingImpl) :
  has_context s = true <-> exists x, mContext s = Some x.
Proof.
  unfold has_context. destruct (mContext s) as [x |]; simpl; split.
  - intros _. now exists x.
  - reflexivity.
  - discriminate.
  - intros [x Hx]. discriminate.
Qed.

Lemma commandImpl_without_context (s : DynamicsProcessingImpl)
    (command : CommandId) :
  mContext s = None ->
  commandImpl command s =
    Some (fromExceptionCodeWithMessage EX_NULL_POINTER "nullContext", s, []).
Proof. intros Hx. unfold commandImpl. run_with Hx. reflexivity. Qed.

Lemma commandImpl_with_context (s : DynamicsProcessingImpl) (x : Ctx)
    (command : CommandId) :
  mContext s = Some x ->
  commandImpl command s =
    match command with
    | START =>
        Some (ScopedAStatus_ok, set_context (Some (enable x)) s,
              [EvContext call_enable])
    | STOP =>
        Some (ScopedAStatus_ok, set_context (Some (disable x)) s,
              [EvContext call_disable])
    | RESET =>
        Some (ScopedAStatus_ok, set_context (Some (resetBuffer (disable x))) s,
              [EvContext call_disable; EvContext call_resetBuffer])
    | VENDOR_COMMAND _ =>
        Some (fromExceptionCodeWithMessage EX_ILLEGAL_ARGUMENT
                "commandIdNotSupported", s, [])
    end.
Proof.
  intros Hx. unfold commandImpl. destruct command; run_with Hx; reflexivity.
Qed.

Lemma effectProcessImpl_without_context (s : DynamicsProcessingImpl)
    (in_ out : Buffer) (samples : Z) :
  mContext s = None ->
  effectProcessImpl in_ out samples s =
    Some ((mkIEffectStatus EX_NULL_POINTER 0 0, in_, out), s, []).
Proof. intros Hx. unfold effectProcessImpl. run_with Hx. reflexivity. Qed.

Lemma effectProcessImpl_with_context (s : DynamicsProcessingImpl) (x : Ctx)
    (in_ out : Buffer) (samples : Z) :
  mContext s = Some x ->
  effectProcessImpl in_ out samples s =
    Some (fst (lvmProcess in_ out samples x),
          set_context (Some (snd (lvmProcess in_ out samples x))) s,
          [EvContext (call_lvmProcess in_ out samples)]).
Proof.
  intros Hx. unfold effectProcessImpl. run_with Hx.
  destruct (lvmProcess in_ out samples x) as [[[st i] o] x']. reflexivity.
Qed.

(** The four ways [setParameterSpecific] ends. *)
Lemma setParameterSpecific_cases (specific : Parameter_Specific)
    (s : DynamicsProcessingImpl) :
  (exists o,
      specific = Specific_other o /\
      setParameterSpecific specific s =
        Some (fromExceptionCodeWithMessage EX_ILLEGAL_ARGUMENT
                "EffectNotSupported", s, [])) \/
  (exists p,
      specific = Specific_dynamicsProcessing p /\
      mContext s = None /\
      setParameterSpecific specific s =
        Some (fromExceptionCodeWithMessage EX_NULL_POINTER "nullContext",
              s, [])) \/
  (exists v x,
      specific = Specific_dynamicsProcessing (make_vendorExtension v) /\
      mContext s = Some x /\
      setParameterSpecific specific s =
        Some (fromExceptionCodeWithMessage EX_ILLEGAL_ARGUMENT
                "DPVendorExtensionTagNotSupported", s, [])) \/
  (exists p x c rc x' message,
      specific = Specific_dynamicsProcessing p /\
      mContext s = Some x /\
      setParameterSpecific specific s =
        Some (if negb (RetCode_eqb rc SUCCESS)
              then fromExceptionCodeWithMessage EX_ILLEGAL_ARGUMENT message
              else ScopedAStatus_ok,
              set_context (Some x') s, [EvContext c])).
Proof.
  destruct specific as [p | o].
  - destruct (mContext s) as [x |] eqn:Hx.
    + destruct p;
        try (right; right; right;
             rewrite (setParameterSpecific_enters s _ Hx eq_refl);
             rewrite (set_through_mContext_runs s _ _ _ Hx);
             eexists _, x, _, _, _, _;
             split; [reflexivity | split; reflexivity]).
      right. right. left. exists v, x.
      split; [reflexivity | split; [reflexivity |]].
      rewrite (setParameterSpecific_enters s (make_vendorExtension v) Hx eq_refl).
      reflexivity.
    + right. left. exists p.
      split; [reflexivity | split; [reflexivity |]].
      unfold setParameterSpecific. run_with Hx. reflexivity.
  - left. exists o. split; [reflexivity |].
    unfold setParameterSpecific. unfold_body. reflexivity.
Qed.

Lemma answered_code (rc : RetCode) (message : string) :
  isOk (if negb (RetCode_eqb rc SUCCESS)
        then fromExceptionCodeWithMessage EX_ILLEGAL_ARGUMENT message
        else ScopedAStatus_ok) = RetCode_eqb rc SUCCESS /\
  (getExceptionCode
     (if negb (RetCode_eqb rc SUCCESS)
      then fromExceptionCodeWithMessage EX_ILLEGAL_ARGUMENT message
      else ScopedAStatus_ok) = EX_NONE \/
   getExceptionCode
     (if negb (RetCode_eqb rc SUCCESS)
      then fromExceptionCodeWithMessage EX_ILLEGAL_ARGUMENT message
      else ScopedAStatus_ok) = EX_ILLEGAL_ARGUMENT).
Proof. destruct rc; cbv; split; auto. Qed.

(** What [setParameterSpecific] leaves alone. *)
Lemma setParameterSpecific_frame (specific : Parameter_Specific)
    (s : DynamicsProcessingImpl) :
  exists st s' e,
    setParameterSpecific specific s = Some (st, s', e) /\
    mState s' = mState s /\
    mWorker s' = mWorker s /\
    has_context s' = has_context s /\
    existsb is_state_write e = false /\
    (e = [] /\ s' = s /\ isOk st = false \/ exists c, e = [EvContext c]).
Proof.
  destruct (setParameterSpecific_cases specific s)
    as [(o & _ & Hrun) | [(p & _ & Hx & Hrun) | [(v & x & _ & Hx & Hrun)
       | (p & x & c & rc & x' & message & _ & Hx & Hrun)]]];
    rewrite Hrun; eexists _, _, _; (split; [reflexivity |]);
    repeat split; try (left; repeat split; reflexivity).
  - unfold has_context. rewrite Hx. reflexivity.
  - right. now exists c.
Qed.

Lemma getParameterDynamicsProcessing_with_context
    (s : DynamicsProcessingImpl) (x : Ctx) (tag : DynamicsProcessing_Tag)
    (specific : Parameter_Specific) :
  mContext s = Some x ->
  getParameterDynamicsProcessing tag specific s =
    match tag with
    | vendorExtension =>
        Some ((fromExceptionCodeWithMessage EX_ILLEGAL_ARGUMENT
                 "DPVendorExtensionTagInWrongId", specific), s, [])
    | engineArchitecture =>
        Some ((ScopedAStatus_ok,
               Specific_dynamicsProcessing
                 (make_engineArchitecture (getEngineArchitecture x))),
              s, [EvContext call_getEngineArchitecture])
    | preEq =>
        Some ((ScopedAStatus_ok,
               Specific_dynamicsProcessing (make_preEq (getPreEq x))),
              s, [EvContext call_getPreEq])
    | postEq =>
        Some ((ScopedAStatus_ok,
               Specific_dynamicsProcessing (make_postEq (getPostEq x))),
              s, [EvContext call_getPostEq])
    | preEqBand =>
        Some ((ScopedAStatus_ok,
               Specific_dynamicsProcessing (make_preEqBand (getPreEqBand x))),
              s, [EvContext call_getPreEqBand])
    | postEqBand =>
        Some ((ScopedAStatus_ok,
               Specific_dynamicsProcessing (make_postEqBand (getPostEqBand x))),
              s, [EvContext call_getPostEqBand])
    | mbc =>
        Some ((ScopedAStatus_ok,
               Specific_dynamicsProcessing (make_mbc (getMbc x))),
              s, [EvContext call_getMbc])
    | mbcBand =>
        Some ((ScopedAStatus_ok,
               Specific_dynamicsProcessing (make_mbcBand (getMbcBand x))),
              s, [EvContext call_getMbcBand])
    | limiter =>
        Some ((ScopedAStatus_ok,
               Specific_dynamicsProcessing (make_limiter (getLimiter x))),
              s, [EvContext call_getLimiter])
    | inputGain =>
        Some ((ScopedAStatus_ok,
               Specific_dynamicsProcessing (make_inputGain (getInputGain x))),
              s, [EvContext call_getInputGain])
    end.
Proof.
  intros Hx. unfold getParameterDynamicsProcessing, get_through_mContext.
  destruct tag; run_with Hx; try rewrite <- Hx, set_context_same; reflexivity.
Qed.

Lemma getParameterSpecific_runs (s : DynamicsProcessingImpl) (id : Parameter_Id)
    (specific : option Parameter_Specific) :
  getParameterSpecific id specific s =
    match specific with
    | None =>
        Some ((fromExceptionCodeWithMessage EX_NULL_POINTER "nullPtr", None),
              s, [])
    | Some pointee =>
        match id with
        | Id_dynamicsProcessingTag (Id_commonTag tag) =>
            match getParameterDynamicsProcessing tag pointee s with
            | Some ((st, after), s', e) => Some ((st, Some after), s', e)
            | None => None
            end
        | Id_dynamicsProcessingTag (Id_vendorExtensionTag _) =>
            Some ((fromExceptionCodeWithMessage EX_ILLEGAL_ARGUMENT
                     "DPVendorExtensionIdNotSupported", Some pointee), s, [])
        | _ =>
            Some ((fromExceptionCodeWithMessage EX_ILLEGAL_ARGUMENT
                     "wrongIdTag", Some pointee), s, [])
        end
    end.
Proof.
  unfold getParameterSpecific.
  destruct specific as [pointee |]; [| unfold_body; reflexivity].
  destruct id as [[v | tag] | o |]; try (unfold_body; reflexivity).
  unfold method at 1, call, bind, RETURN_IF, RETURN_VALUE_IF, get_or_abort,
    pure, leave, leaving.
  cbn.
  destruct (getParameterDynamicsProcessing tag pointee s)
    as [[[[st after] s'] e] |]; cbn; [| reflexivity].
  rewrite app_nil_r. reflexivity.
Qed.

(** ** [open], case by case *)

Lemma not_32_bit_float_false (common : Parameter_Common) :
  not_32_bit_float common = false <-> float32_in_out common.
Proof.
  unfold not_32_bit_float, float32_in_out. split.
  - intros H. apply orb_false_iff in H. destruct H as [H1 H2].
    apply negb_false_iff in H1, H2.
    apply PcmType_eqb_eq in H1, H2. split; congruence.
  - intros [-> ->]. reflexivity.
Qed.

Lemma open_refuses_format (s : DynamicsProcessingImpl)
    (common : Parameter_Common) (specific : option Parameter_Specific)
    (ret : option OpenEffectReturn) :
  not_32_bit_float common = true ->
  open common specific ret s =
    Some ((fromExceptionCodeWithMessage EX_ILLEGAL_ARGUMENT
             "dataMustBe32BitsFloat", ret), s, []).
Proof.
  unfold not_32_bit_float. intros H. unfold open.
  unfold method, bind at 1, RETURN_IF at 1, RETURN_VALUE_IF at 1.
  rewrite H. reflexivity.
Qed.

Lemma open_already_open (s : DynamicsProcessingImpl)
    (common : Parameter_Common) (specific : option Parameter_Specific)
    (ret : option OpenEffectReturn) :
  not_32_bit_float common = false ->
  mState s <> INIT ->
  open common specific ret s = Some ((ScopedAStatus_ok, ret), s, []).
Proof.
  unfold not_32_bit_float. intros Hf Hs.
  assert (Hst : negb (State_eqb (mState s) INIT) = true).
  { destruct (mState s); [contradiction | reflexivity | reflexivity]. }
  unfold open.
  unfold method, bind at 1, RETURN_IF at 1, RETURN_VALUE_IF at 1.
  rewrite Hf. unfold pure at 1, bind at 1, bind at 1, read_mState.
  unfold RETURN_OK_IF, RETURN_VALUE_IF at 1. rewrite Hst. reflexivity.
Qed.

(** From [INIT] and with float formats [open] goes through four steps;
    it stops at the first that fails. *)
Lemma open_from_init (s : DynamicsProcessingImpl)
    (common : Parameter_Common) (specific : option Parameter_Specific)
    (ret : option OpenEffectReturn) :
  not_32_bit_float common = false ->
  mState s = INIT ->
  exists x0 e0 stc x1 st2 s2 e2 x2,
    createContext common s = Some (Some x0, set_context (Some x0) s, e0) /\
    existsb is_state_write e0 = false /\
    setCommon common x0 = (stc, x1) /\
    setParameterSpecific (specific_or_default specific x1)
      (set_context (Some x1) s) = Some (st2, s2, e2) /\
    mState s2 = INIT /\
    mWorker s2 = mWorker s /\
    mContext s2 = Some x2 /\
    existsb is_state_write e2 = false /\
    open common specific ret s =
      if negb (isOk stc) then
        Some ((fromExceptionCodeWithMessage (getExceptionCode stc)
                 "setCommParamErr", ret),
              set_context (Some x1) s,
              e0 ++ [EvSetParameterCommon common])
      else if negb (isOk st2) then
        Some ((fromExceptionCodeWithMessage (getExceptionCode st2)
                 (refusal_message specific), ret),
              s2,
              e0 ++ EvSetParameterCommon common ::
                default_lookup specific ++ e2)
      else
        Some ((if negb (RetCode_eqb
                          (fst (createThread (Some (snd (dupeFmq ret x2)))
                                  kEffectName (mWorker s))) SUCCESS)
               then fromExceptionCodeWithMessage EX_UNSUPPORTED_OPERATION
                      "FailedToCreateWorker"
               else ScopedAStatus_ok,
               fst (dupeFmq ret x2)),
              mkImpl IDLE (Some (snd (dupeFmq ret x2)))
                (snd (createThread (Some (snd (dupeFmq ret x2)))
                        kEffectName (mWorker s))),
              (e0 ++ EvSetParameterCommon common ::
                 default_lookup specific ++ e2) ++
              [EvState IDLE; EvContext (call_dupeFmq ret);
               EvCreateThread kEffectName]).
Proof.
  unfold not_32_bit_float. intros Hf Hinit.
  destruct (createContext_outcome common s) as (x0 & e0 & Hcreate & He0).
  destruct (setCommon common x0) as [stc x1] eqn:Hcommon.
  assert (Hsetc : forall R,
             setParameterCommon (R := R) common (set_context (Some x0) s) =
               Some (Next stc, set_context (Some x1) s,
                     [EvSetParameterCommon common])).
  { intros R. unfold setParameterCommon. cbn. rewrite Hcommon. reflexivity. }
  destruct (setParameterSpecific_frame (specific_or_default specific x1)
              (set_context (Some x1) s))
    as (st2 & s2 & e2 & Hset & Hs2 & Hw2 & Hc2 & He2 & _).
  cbn in Hs2, Hw2. unfold has_context in Hc2. cbn in Hc2.
  apply negb_true_iff in Hc2. apply is_null_false in Hc2.
  destruct Hc2 as [x2 Hx2].
  exists x0, e0, stc, x1, st2, s2, e2, x2.
  repeat match goal with |- _ /\ _ => split end;
    try reflexivity; try assumption; try congruence.
  unfold open, method.
  erewrite bind_next
    by (unfold RETURN_IF, RETURN_VALUE_IF; rewrite Hf; reflexivity).
  erewrite bind_next by reflexivity.
  erewrite bind_next
    by (unfold RETURN_OK_IF, RETURN_VALUE_IF; rewrite Hinit; reflexivity).
  erewrite bind_next by (apply call_runs; exact Hcreate).
  erewrite bind_next by reflexivity.
  destruct (isOk stc) eqn:Hstc; cbn [negb].
  2:{ erewrite bind_return
        by (eapply astatus_not_ok_returns; [apply Hsetc | exact Hstc]).
      cbn. rewrite ?app_nil_r. reflexivity. }
  erewrite bind_next
    by (eapply astatus_ok_passes; [apply Hsetc | exact Hstc]).
  assert (Hblock :
    (match specific with
     | Some value =>
         RETURN_IF_ASTATUS_NOT_OK (leaving ret)
           (call (setParameterSpecific value)) "setSpecParamErr"
     | None =>
         bind (through_mContext call_getEngineArchitecture
                 (const_call getEngineArchitecture))
           (fun arch =>
              RETURN_IF_ASTATUS_NOT_OK (leaving ret)
                (call (setParameterSpecific
                         (Specific_dynamicsProcessing
                            (make_engineArchitecture arch))))
                "setDefaultEngineErr")
     end) (set_context (Some x1) s) =
    if isOk st2 then Some (Next tt, s2, default_lookup specific ++ e2 ++ [])
    else Some (Return (leaving ret
                (fromExceptionCodeWithMessage (getExceptionCode st2)
                   (refusal_message specific))), s2,
                default_lookup specific ++ e2 ++ [])).
  { destruct specific as [value |];
      cbn [specific_or_default default_lookup refusal_message] in *.
    - destruct (isOk st2) eqn:Hst2.
      + erewrite astatus_ok_passes;
          [reflexivity | apply call_runs; exact Hset | exact Hst2].
      + erewrite astatus_not_ok_returns;
          [reflexivity | apply call_runs; exact Hset | exact Hst2].
    - erewrite bind_next by reflexivity.
      destruct (isOk st2) eqn:Hst2.
      + erewrite astatus_ok_passes;
          [reflexivity | apply call_runs; exact Hset | exact Hst2].
      + erewrite astatus_not_ok_returns;
          [reflexivity | apply call_runs; exact Hset | exact Hst2]. }
  destruct (isOk st2) eqn:Hst2; cbn [negb].
  2:{ erewrite bind_return by exact Hblock.
      cbn. rewrite ?app_nil_r, <- ?app_assoc. reflexivity. }
  erewrite bind_next by exact Hblock.
  erewrite bind_next by reflexivity.
  destruct (dupeFmq ret x2) as [ret1 x3] eqn:Hdupe.
  erewrite bind_next
    by (unfold through_mContext; cbn; rewrite Hx2, Hdupe; reflexivity).
  cbn [fst snd].
  rewrite <- Hw2.
  destruct (createThread (Some x3) kEffectName (mWorker s2)) as [rc w] eqn:Hthread.
  erewrite bind_next
    by (unfold createThread_with_mContext, getEffectName; cbn;
        rewrite Hthread; reflexivity).
  cbn [fst snd].
  destruct rc; cbn; rewrite ?app_nil_r, <- ?app_assoc; cbn;
    rewrite <- ?app_assoc; reflexivity.
Qed.

Lemma isOk_fromExceptionCode (st : ScopedAStatus) (message : string) :
  isOk (fromExceptionCodeWithMessage (getExceptionCode st) message) = isOk st.
Proof. reflexivity. Qed.

(** The three ways [open] ends. *)
Lemma open_summary (s : DynamicsProcessingImpl)
    (common : Parameter_Common) (specific : option Parameter_Specific)
    (ret : option OpenEffectReturn) :
  exists st ret' s' evs,
    open common specific ret s = Some ((st, ret'), s', evs) /\
    ((not_32_bit_float common = true /\
      st = fromExceptionCodeWithMessage EX_ILLEGAL_ARGUMENT
             "dataMustBe32BitsFloat" /\
      s' = s /\ ret' = ret /\ evs = []) \/
     (not_32_bit_float common = false /\ mState s <> INIT /\
      st = ScopedAStatus_ok /\ s' = s /\ ret' = ret /\ evs = []) \/
     (not_32_bit_float common = false /\ mState s = INIT /\
      has_context s' = true /\
      ((isOk st = false /\ mState s' = INIT /\ ret' = ret /\
        mWorker s' = mWorker s /\ existsb is_state_write evs = false) \/
       (mState s' = IDLE /\
        (st = ScopedAStatus_ok \/
         st = fromExceptionCodeWithMessage EX_UNSUPPORTED_OPERATION
                "FailedToCreateWorker"))))).
Proof.
  destruct (not_32_bit_float common) eqn:Hf.
  - eexists _, _, _, _. split; [now apply open_refuses_format |].
    left. repeat split.
  - destruct (State_eqb (mState s) INIT) eqn:Hs.
    + apply State_eqb_eq in Hs.
      destruct (open_from_init s common specific ret Hf Hs)
        as (x0 & e0 & stc & x1 & st2 & s2 & e2 & x2 & Hcreate & He0 & Hcommon
            & Hset & Hs2 & Hw2 & Hx2 & He2 & Hopen).
      rewrite Hopen.
      destruct (isOk stc) eqn:Hstc; cbn [negb].
      * destruct (isOk st2) eqn:Hst2; cbn [negb].
        -- eexists _, _, _, _. split; [reflexivity |].
           right. right. repeat split; try assumption.
           right. split; [reflexivity |].
           destruct (RetCode_eqb _ SUCCESS); cbn [negb]; auto.
        -- eexists _, _, _, _. split; [reflexivity |].
           right. right. repeat split; try assumption.
           ++ unfold has_context. rewrite Hx2. reflexivity.
           ++ left. repeat split; try assumption.
              apply existsb_state_write_app; [exact He0 |].
              change (existsb is_state_write
                        (default_lookup specific ++ e2) = false).
              apply existsb_state_write_app;
                [destruct specific; reflexivity | exact He2].
      * eexists _, _, _, _. split; [reflexivity |].
        right. right. repeat split; try assumption.
        left. repeat split; try assumption.
        apply existsb_state_write_app; [exact He0 | reflexivity].
    + eexists _, _, _, _. split.
      * apply open_already_open; [exact Hf |].
        intros H. rewrite H in Hs. discriminate.
      * right. left. repeat split.
        intros H. rewrite H in Hs. discriminate.
Qed.

(** ** Commands *)

(** X1. [commandImpl] on an instance without a context fails with
    [EX_NULL_POINTER] for every command and calls nothing.  With a context,
    [START] enables it, [STOP] disables it, [RESET] disables it and then
    resets its buffer, each with an ok status; a vendor command is refused
    with [EX_ILLEGAL_ARGUMENT] and the context is not touched. *)
Theorem commandImpl_dispatch :
  forall (s : DynamicsProcessingImpl),
    (mContext s = None -> forall command,
        commandImpl command s =
          Some (fromExceptionCodeWithMessage EX_NULL_POINTER "nullContext",
                s, [])) /\
    (forall x, mContext s = Some x ->
       commandImpl START s =
         Some (ScopedAStatus_ok, set_context (Some (enable x)) s,
               [EvContext call_enable]) /\
       commandImpl STOP s =
         Some (ScopedAStatus_ok, set_context (Some (disable x)) s,
               [EvContext call_disable]) /\
       commandImpl RESET s =
         Some (ScopedAStatus_ok, set_context (Some (resetBuffer (disable x))) s,
               [EvContext call_disable; EvContext call_resetBuffer]) /\
       (forall n,
           commandImpl (VENDOR_COMMAND n) s =
             Some (fromExceptionCodeWithMessage EX_ILLEGAL_ARGUMENT
                     "commandIdNotSupported", s, []))).
Proof.
  intros s. split.
  - intros Hx command. now apply commandImpl_without_context.
  - intros x Hx.
    split; [exact (commandImpl_with_context s START Hx) |].
    split; [exact (commandImpl_with_context s STOP Hx) |].
    split; [exact (commandImpl_with_context s RESET Hx) |].
    intros n. exact (commandImpl_with_context s (VENDOR_COMMAND n) Hx).
Qed.

(** ** The descriptor and the entry points *)

(** X2. [getDescriptor] fails with [EX_ILLEGAL_ARGUMENT] on a null
    pointer and otherwise writes [kDescriptor] and returns ok: the
    descriptor that [queryEffect] writes.  The implementation UUID that
    this descriptor carries is the one UUID that [queryEffect] and
    [createEffect] accept. *)
Theorem getDescriptor_agrees_with_queryEffect :
  getExceptionCode (fst (getDescriptor None)) = EX_ILLEGAL_ARGUMENT /\
  snd (getDescriptor None) = None /\
  (forall d d',
      getDescriptor (Some d) = (ScopedAStatus_ok, Some kDescriptor) /\
      queryEffect (Some (id_uuid (id (common kDescriptor)))) (Some d') =
        Some (EX_NONE, snd (getDescriptor (Some d)))) /\
  (forall slot,
      fst (fst (createEffect (Some (id_uuid (id (common kDescriptor))))
                  (Some slot))) = EX_NONE) /\
  (forall u d,
      queryEffect (Some u) (Some d) = Some (EX_NONE, Some kDescriptor) <->
      u = id_uuid (id (common kDescriptor))).
Proof.
  assert (Hk : uuid_not_supported (Some kDynamicsProcessingImplUUID) = false).
  { now apply uuid_not_supported_false. }
  repeat split; try reflexivity.
  - unfold queryEffect. cbn [kDescriptor common id id_uuid].
    rewrite Hk. reflexivity.
  - unfold createEffect. cbn [kDescriptor common id id_uuid].
    rewrite Hk. reflexivity.
  - unfold queryEffect. intros H.
    destruct (uuid_not_supported (Some u)) eqn:Hu; [discriminate |].
    apply uuid_not_supported_false in Hu. now inversion Hu.
  - intros ->. unfold queryEffect. cbn [kDescriptor common id id_uuid].
    rewrite Hk. reflexivity.
Qed.

(** C5. [queryEffect] does not return [EX_NONE] for every input with the
    supported UUID: when [_aidl_return] is null, the UUID test of line 51
    passes and the assignment of line 55 goes through the null pointer, so
    no descriptor is written and no code is returned.  The test of the
    output pointer is missing in [queryEffect] alone: [queryEffect] itself
    tests its UUID pointer and answers [EX_ILLEGAL_ARGUMENT] when that one
    is null, and on a null output pointer [createEffect], with the same
    UUID, and [getDescriptor] both answer [EX_ILLEGAL_ARGUMENT]. *)
Theorem queryEffect_misses_null_check :
  queryEffect (Some kDynamicsProcessingImplUUID) None = None /\
  queryEffect None None = Some (EX_ILLEGAL_ARGUMENT, None) /\
  createEffect (Some kDynamicsProcessingImplUUID) None =
    (EX_ILLEGAL_ARGUMENT, None, []) /\
  getExceptionCode (fst (getDescriptor None)) = EX_ILLEGAL_ARGUMENT /\
  (forall d,
      queryEffect (Some kDynamicsProcessingImplUUID) (Some d) =
        Some (EX_NONE, Some kDescriptor)).
Proof.
  assert (Hk : uuid_not_supported (Some kDynamicsProcessingImplUUID) = false).
  { now apply uuid_not_supported_false. }
  unfold queryEffect, createEffect. rewrite Hk.
  repeat split.
Qed.

(** X3. Given non-null output pointers, [createEffect] and [queryEffect]
    return the same code for the same UUID pointer: both [EX_NONE], or
    both [EX_ILLEGAL_ARGUMENT]; and neither writes through its output
    pointer when it refuses. *)
Theorem createEffect_and_queryEffect_agree :
  forall (in_impl_uuid : option AudioUuid)
         (slot : option DynamicsProcessingImpl) (d : Descriptor),
    exists code,
      (code = EX_NONE \/ code = EX_ILLEGAL_ARGUMENT) /\
      fst (fst (createEffect in_impl_uuid (Some slot))) = code /\
      queryEffect in_impl_uuid (Some d) =
        Some (code, if code =? EX_NONE then Some kDescriptor else Some d) /\
      snd (fst (createEffect in_impl_uuid (Some slot))) =
        (if code =? EX_NONE then Some (Some make_DynamicsProcessingImpl)
         else Some slot).
Proof.
  intros u slot d. unfold createEffect, queryEffect.
  destruct (uuid_not_supported u).
  - exists EX_ILLEGAL_ARGUMENT. repeat split. now right.
  - exists EX_NONE. repeat split. now left.
Qed.

(** ** What the methods leave alone *)

(** X4. Every method other than [open] returns on every instance, so none
    dereferences a null pointer, and leaves [mState] and the worker as they
    were.  Setting parameters, commands and processing neither create nor
    drop the context; [getParameterSpecific] leaves the whole instance as
    it was; after [createContext] there is a context and after
    [releaseContext] there is none. *)
Theorem only_open_writes_mState :
  forall (s : DynamicsProcessingImpl),
    (forall specific, exists st s' e,
        setParameterSpecific specific s = Some (st, s', e) /\
        mState s' = mState s /\ mWorker s' = mWorker s /\
        has_context s' = has_context s /\
        existsb is_state_write e = false) /\
    (forall id specific, exists r e,
        getParameterSpecific id specific s = Some (r, s, e) /\
        existsb is_state_write e = false) /\
    (forall command, exists st s' e,
        commandImpl command s = Some (st, s', e) /\
        mState s' = mState s /\ mWorker s' = mWorker s /\
        has_context s' = has_context s /\
        existsb is_state_write e = false) /\
    (forall in_ out samples, exists r s' e,
        effectProcessImpl in_ out samples s = Some (r, s', e) /\
        mState s' = mState s /\ mWorker s' = mWorker s /\
        has_context s' = has_context s /\
        existsb is_state_write e = false) /\
    (forall common, exists x s' e,
        createContext common s = Some (Some x, s', e) /\
        mState s' = mState s /\ mWorker s' = mWorker s /\
        mContext s' = Some x /\
        existsb is_state_write e = false) /\
    (exists s' e,
        releaseContext s = Some (SUCCESS, s', e) /\
        mState s' = mState s /\ mWorker s' = mWorker s /\
        mContext s' = None /\
        existsb is_state_write e = false).
Proof.
  intros s.
  split; [| split; [| split; [| split; [| split]]]].
  - intros specific.
    destruct (setParameterSpecific_frame specific s)
      as (st & s' & e & Hrun & Hs & Hw & Hc & He & _).
    now exists st, s', e.
  - intros id specific. rewrite getParameterSpecific_runs.
    destruct specific as [pointee |]; [| eexists _, _; split; reflexivity].
    destruct id as [[v | tag] | o |];
      try (eexists _, _; split; reflexivity).
    destruct (mContext s) as [x |] eqn:Hx.
    + rewrite (getParameterDynamicsProcessing_with_context s tag pointee Hx).
      destruct tag; eexists _, _; split; reflexivity.
    + rewrite (getParameterDynamicsProcessing_null s tag pointee Hx).
      eexists _, _; split; reflexivity.
  - intros command. destruct (mContext s) as [x |] eqn:Hx.
    + rewrite (commandImpl_with_context s command Hx).
      destruct command; eexists _, _, _; (split; [reflexivity |]);
        unfold has_context; rewrite ?Hx; repeat split.
    + rewrite (commandImpl_without_context s command Hx).
      eexists _, _, _. split; [reflexivity |]. repeat split.
  - intros in_ out samples. destruct (mContext s) as [x |] eqn:Hx.
    + rewrite (effectProcessImpl_with_context s in_ out samples Hx).
      eexists _, _, _. split; [reflexivity |].
      unfold has_context. rewrite Hx. repeat split.
    + rewrite (effectProcessImpl_without_context s in_ out samples Hx).
      eexists _, _, _. split; [reflexivity |]. repeat split.
  - intros common.
    destruct (createContext_outcome common s) as (x0 & e0 & Hrun & He0).
    exists x0, (set_context (Some x0) s), e0. repeat split; assumption.
  - destruct (mContext s) as [x |] eqn:Hx.
    + rewrite (releaseContext_existing s Hx).
      eexists _, _. split; [reflexivity |]. repeat split.
    + rewrite (releaseContext_none s Hx).
      eexists _, _. split; [reflexivity |]. repeat split. exact Hx.
Qed.

(** ** The states [open] reaches *)

(** X5. [open] returns on every instance and for every argument.  It
    leaves [mState] as it was or takes it from [INIT] to [IDLE], and in
    the second case the instance has a context; it never drops a context;
    after an ok status the state is not [INIT]; and from [INIT] with float
    formats the instance has a context afterwards whether [open] succeeded
    or not. *)
Theorem open_transitions :
  forall (s : DynamicsProcessingImpl) (common : Parameter_Common)
         (specific : option Parameter_Specific)
         (ret : option OpenEffectReturn),
    exists st ret' s' evs,
      open common specific ret s = Some ((st, ret'), s', evs) /\
      (mState s' = mState s \/
       mState s = INIT /\ mState s' = IDLE /\ has_context s' = true) /\
      (has_context s = true -> has_context s' = true) /\
      (isOk st = true -> mState s' <> INIT) /\
      (float32_in_out common -> mState s = INIT -> has_context s' = true).
Proof.
  intros s common specific ret.
  destruct (open_summary s common specific ret)
    as (st & ret' & s' & evs & Hopen & Hcases).
  exists st, ret', s', evs. split; [exact Hopen |].
  destruct Hcases as [(Hf & -> & -> & -> & ->)
                     | [(Hf & Hs & -> & -> & -> & ->)
                     | (Hf & Hs & Hc & [(Hok & Hs' & -> & Hw & He)
                                       | (Hs' & Hst)])]].
  - split; [now left | split; [auto | split]].
    + discriminate.
    + intros Hfloat. apply not_32_bit_float_false in Hfloat. congruence.
  - split; [now left | split; [auto | split]].
    + intros _. exact Hs.
    + intros _ Hinit. contradiction.
  - split; [left; congruence | split; [auto | split]].
    + congruence.
    + auto.
  - split; [right; auto | split; [auto | split]].
    + intros _. congruence.
    + auto.
Qed.

(** X6. When [open] fails from [INIT] with float formats, the instance
    has a context all the same.  Either the state is still [INIT], [*ret]
    and the worker are untouched and [mState] was never written; or the
    worker could not be created: the status is [EX_UNSUPPORTED_OPERATION]
    and the state is already [IDLE]. *)
Theorem open_failure_from_init :
  forall (s : DynamicsProcessingImpl) (common : Parameter_Common)
         (specific : option Parameter_Specific)
         (ret : option OpenEffectReturn) st ret' s' evs,
    float32_in_out common ->
    mState s = INIT ->
    open common specific ret s = Some ((st, ret'), s', evs) ->
    isOk st = false ->
    has_context s' = true /\
    ((mState s' = INIT /\ ret' = ret /\ mWorker s' = mWorker s /\
      existsb is_state_write evs = false) \/
     (mState s' = IDLE /\
      st = fromExceptionCodeWithMessage EX_UNSUPPORTED_OPERATION
             "FailedToCreateWorker")).
Proof.
  intros s common specific ret st ret' s' evs Hfloat Hinit Hopen Hok.
  apply not_32_bit_float_false in Hfloat.
  destruct (open_summary s common specific ret)
    as (st0 & ret0 & s0 & evs0 & Hopen0 & Hcases).
  rewrite Hopen in Hopen0. inversion Hopen0; subst st0 ret0 s0 evs0.
  destruct Hcases as [(Hf & _) | [(_ & Hs & _)
                     | (_ & _ & Hc & [(_ & Hs' & Hr & Hw & He)
                                     | (Hs' & [Hst | Hst])])]].
  - congruence.
  - contradiction.
  - split; [exact Hc |]. left. auto.
  - subst st. discriminate Hok.
  - split; [exact Hc |]. right. auto.
Qed.

(** X7. After [open] succeeded from [INIT], a further [open] with float
    formats, whatever its arguments, returns ok and does nothing: the
    instance and [*ret] are as they were and nothing is called. *)
Theorem open_twice :
  forall (s : DynamicsProcessingImpl) (common : Parameter_Common)
         (specific : option Parameter_Specific)
         (ret : option OpenEffectReturn) st ret' s' evs
         (common2 : Parameter_Common) (specific2 : option Parameter_Specific)
         (ret2 : option OpenEffectReturn),
    open common specific ret s = Some ((st, ret'), s', evs) ->
    isOk st = true ->
    float32_in_out common2 ->
    open common2 specific2 ret2 s' = Some ((ScopedAStatus_ok, ret2), s', []).
Proof.
  intros s common specific ret st ret' s' evs common2 specific2 ret2
    Hopen Hok Hfloat2.
  apply not_32_bit_float_false in Hfloat2.
  apply open_already_open; [exact Hfloat2 |].
  destruct (open_summary s common specific ret)
    as (st0 & ret0 & s0 & evs0 & Hopen0 & Hcases).
  rewrite Hopen in Hopen0. inversion Hopen0; subst st0 ret0 s0 evs0.
  destruct Hcases as [(_ & Hst & _) | [(_ & Hs & _ & -> & _)
                     | (_ & _ & _ & [(Hnok & _) | (Hs' & _)])]].
  - subst st. discriminate Hok.
  - exact Hs.
  - congruence.
  - congruence.
Qed.

(** X8. After [open] succeeded from [INIT] the instance has a context,
    so processing is handed to the engine: [effectProcessImpl] returns
    what [lvmProcess] returns on that context, and no command is answered
    with the null-context status. *)
Theorem open_then_process :
  forall (s : DynamicsProcessingImpl) (common : Parameter_Common)
         (specific : option Parameter_Specific)
         (ret : option OpenEffectReturn) st ret' s' evs,
    mState s = INIT ->
    open common specific ret s = Some ((st, ret'), s', evs) ->
    isOk st = true ->
    exists x,
      mContext s' = Some x /\
      (forall in_ out samples,
          effectProcessImpl in_ out samples s' =
            Some (fst (lvmProcess in_ out samples x),
                  set_context (Some (snd (lvmProcess in_ out samples x))) s',
                  [EvContext (call_lvmProcess in_ out samples)])) /\
      (forall command, exists stc s'' e,
          commandImpl command s' = Some (stc, s'', e) /\
          getExceptionCode stc <> EX_NULL_POINTER).
Proof.
  intros s common specific ret st ret' s' evs Hinit Hopen Hok.
  destruct (open_summary s common specific ret)
    as (st0 & ret0 & s0 & evs0 & Hopen0 & Hcases).
  rewrite Hopen in Hopen0. inversion Hopen0; subst st0 ret0 s0 evs0.
  assert (Hc : has_context s' = true).
  { destruct Hcases as [(_ & Hst & _) | [(_ & Hs & _)
                       | (_ & _ & Hc & _)]].
    - subst st. discriminate Hok.
    - contradiction.
    - exact Hc. }
  apply has_context_true in Hc. destruct Hc as [x Hx].
  exists x. split; [exact Hx | split].
  - intros in_ out samples. now apply effectProcessImpl_with_context.
  - intros command. rewrite (commandImpl_with_context s' command Hx).
    destruct command; eexists _, _, _; (split; [reflexivity |]); discriminate.
Qed.

(** ** Context life cycle *)

Lemma createContext_runs (common : Parameter_Common)
    (s : DynamicsProcessingImpl) :
  createContext common s =
    Some (Some (context_or_new common s),
          set_context (Some (context_or_new common s)) s,
          context_or_new_events common s).
Proof.
  unfold context_or_new, context_or_new_events.
  destruct (mContext s) as [x |] eqn:Hx.
  - rewrite (createContext_existing s common Hx).
    rewrite <- Hx, set_context_same. reflexivity.
  - now apply createContext_new.
Qed.

Lemma releaseContext_runs (s : DynamicsProcessingImpl) :
  exists e,
    releaseContext s = Some (SUCCESS, set_context None s, e).
Proof.
  destruct (mContext s) as [x |] eqn:Hx.
  - rewrite (releaseContext_existing s Hx). eexists. reflexivity.
  - rewrite (releaseContext_none s Hx). exists [].
    rewrite <- Hx, set_context_same. reflexivity.
Qed.

(** X9. A second [releaseContext] does nothing.  A context created after
    a release is a new one, made from the common parameters of that call:
    the released context does not come back.  And [releaseContext] after
    [createContext] disables, resets and drops exactly the context that
    [createContext] returned. *)
Theorem context_life_cycle :
  forall (s : DynamicsProcessingImpl),
    (forall r s' e,
        releaseContext s = Some (r, s', e) ->
        releaseContext s' = Some (SUCCESS, s', [])) /\
    (forall common r s' e,
        releaseContext s = Some (r, s', e) ->
        createContext common s' =
          Some (Some (makeContext 1 common),
                set_context (Some (makeContext 1 common)) s',
                [EvMakeContext 1 common])) /\
    (forall common x s' e,
        createContext common s = Some (x, s', e) ->
        exists x0,
          x = Some x0 /\
          releaseContext s' =
            Some (SUCCESS, set_context None s,
                  [EvContext call_disable; EvContext call_resetBuffer;
                   EvResetContext (resetBuffer (disable x0))])).
Proof.
  intros s. split; [| split].
  - intros r s' e Hrun. destruct (releaseContext_runs s) as [e0 H0].
    rewrite H0 in Hrun. inversion Hrun; subst.
    now apply releaseContext_none.
  - intros common r s' e Hrun. destruct (releaseContext_runs s) as [e0 H0].
    rewrite H0 in Hrun. inversion Hrun; subst.
    now apply createContext_new.
  - intros common x s' e Hrun. rewrite createContext_runs in Hrun.
    inversion Hrun; subst. eexists. split; [reflexivity |].
    now rewrite (releaseContext_existing
                   (set_context (Some (context_or_new common s)) s) eq_refl).
Qed.

(** X10. [releaseContext] does not touch [mState]: once the context of an
    instance that is not in [INIT] is released, [open] with float formats
    still returns ok at once and makes no new context, and processing is
    then answered with [{EX_NULL_POINTER, 0, 0}]. *)
Theorem open_after_release_makes_no_context :
  forall (s : DynamicsProcessingImpl) (common : Parameter_Common)
         (specific : option Parameter_Specific)
         (ret : option OpenEffectReturn) (in_ out : Buffer) (samples : Z),
    mState s <> INIT ->
    float32_in_out common ->
    exists s1 e1,
      releaseContext s = Some (SUCCESS, s1, e1) /\
      open common specific ret s1 = Some ((ScopedAStatus_ok, ret), s1, []) /\
      mContext s1 = None /\
      effectProcessImpl in_ out samples s1 =
        Some ((mkIEffectStatus EX_NULL_POINTER 0 0, in_, out), s1, []).
Proof.
  intros s common specific ret in_ out samples Hs Hfloat.
  apply not_32_bit_float_false in Hfloat.
  destruct (releaseContext_runs s) as [e1 Hrel].
  exists (set_context None s), e1.
  split; [exact Hrel | split; [| split]].
  - apply open_already_open; [exact Hfloat | exact Hs].
  - reflexivity.
  - now apply effectProcessImpl_without_context.
Qed.

(** ** Failures of [open] *)

(** X11. When the inherited [setParameterCommon] refuses the common
    parameter, [open] from [INIT] returns the exception code of that
    refusal with the message "setCommParamErr"; no specific parameter is
    set, [*ret] and the state are as they were, and the context, which is
    the one the instance had or a new one, stays. *)
Theorem open_propagates_common_failure :
  forall (s : DynamicsProcessingImpl) (common : Parameter_Common)
         (specific : option Parameter_Specific)
         (ret : option OpenEffectReturn),
    float32_in_out common ->
    mState s = INIT ->
    isOk (fst (setCommon common (context_or_new common s))) = false ->
    open common specific ret s =
      Some ((fromExceptionCodeWithMessage
               (getExceptionCode
                  (fst (setCommon common (context_or_new common s))))
               "setCommParamErr", ret),
            set_context
              (Some (snd (setCommon common (context_or_new common s)))) s,
            context_or_new_events common s ++ [EvSetParameterCommon common]).
Proof.
  intros s common specific ret Hfloat Hinit Hfail.
  apply not_32_bit_float_false in Hfloat.
  destruct (open_from_init s common specific ret Hfloat Hinit)
    as (x0 & e0 & stc & x1 & st2 & s2 & e2 & x2 & Hcreate & _ & Hcommon
        & _ & _ & _ & _ & _ & Hopen).
  rewrite createContext_runs in Hcreate. inversion Hcreate; subst x0 e0.
  rewrite Hcommon in Hfail |- *. cbn [fst snd] in Hfail |- *.
  rewrite Hopen, Hfail. reflexivity.
Qed.

(** X12. [open] from [INIT] with float formats never succeeds when the
    specific parameter belongs to another effect or carries the
    [vendorExtension] payload: the state stays [INIT] and [*ret] is
    untouched, yet the instance has a context afterwards; and when the
    common parameter was accepted the status is [EX_ILLEGAL_ARGUMENT] with
    the message "setSpecParamErr". *)
Theorem open_refuses_foreign_specific :
  forall (s : DynamicsProcessingImpl) (common : Parameter_Common)
         (refused : Parameter_Specific) (ret : option OpenEffectReturn),
    float32_in_out common ->
    mState s = INIT ->
    ((exists o, refused = Specific_other o) \/
     (exists v, refused = Specific_dynamicsProcessing (make_vendorExtension v))) ->
    exists st s' evs,
      open common (Some refused) ret s = Some ((st, ret), s', evs) /\
      isOk st = false /\
      mState s' = INIT /\
      has_context s' = true /\
      existsb is_state_write evs = false /\
      (isOk (fst (setCommon common (context_or_new common s))) = true ->
       st = fromExceptionCodeWithMessage EX_ILLEGAL_ARGUMENT "setSpecParamErr" /\
       evs = context_or_new_events common s ++ [EvSetParameterCommon common]).
Proof.
  intros s common refused ret Hfloat Hinit Hrefused.
  apply not_32_bit_float_false in Hfloat.
  destruct (open_from_init s common (Some refused) ret Hfloat Hinit)
    as (x0 & e0 & stc & x1 & st2 & s2 & e2 & x2 & Hcreate & He0 & Hcommon
        & Hset & Hs2 & Hw2 & Hx2 & He2 & Hopen).
  rewrite createContext_runs in Hcreate. inversion Hcreate; subst x0 e0.
  cbn [specific_or_default default_lookup refusal_message] in *.
  assert (Hrun : setParameterSpecific refused (set_context (Some x1) s) =
                   Some (fromExceptionCodeWithMessage EX_ILLEGAL_ARGUMENT
                           (match refused with
                            | Specific_other _ => "EffectNotSupported"
                            | _ => "DPVendorExtensionTagNotSupported"
                            end), set_context (Some x1) s, [])).
  { destruct Hrefused as [[o ->] | [v ->]].
    - unfold setParameterSpecific. unfold_body. reflexivity.
    - rewrite (setParameterSpecific_enters (set_context (Some x1) s)
                 (make_vendorExtension v) (x := x1) eq_refl eq_refl).
      reflexivity. }
  rewrite Hrun in Hset. inversion Hset; subst st2 s2 e2.
  rewrite Hopen, Hcommon. cbn [fst snd].
  destruct (isOk stc) eqn:Hstc; cbn.
  - eexists _, _, _. split; [reflexivity |].
    repeat match goal with |- _ /\ _ => split end;
      try reflexivity; try assumption.
    + apply existsb_state_write_app; [exact He0 | reflexivity].
    + intros _. split; reflexivity.
  - eexists _, _, _. split; [reflexivity |].
    repeat match goal with |- _ /\ _ => split end;
      try reflexivity; try assumption.
    + apply existsb_state_write_app; [exact He0 | reflexivity].
    + discriminate.
Qed.

(** ** Status codes of the parameter methods *)

(** X13. [getParameterSpecific] never changes the instance.  When it
    fails, [*specific] is as it was and nothing was called; when it
    succeeds, the id carried a [commonTag], exactly one getter of the
    context was called, and [*specific] holds a dynamics-processing value
    of the tag that was asked for. *)
Theorem getParameterSpecific_output :
  forall (s : DynamicsProcessingImpl) (id : Parameter_Id)
         (specific : option Parameter_Specific),
    exists st after e,
      getParameterSpecific id specific s = Some ((st, after), s, e) /\
      (isOk st = false -> after = specific /\ e = []) /\
      (isOk st = true ->
       exists tag p c,
         id = Id_dynamicsProcessingTag (Id_commonTag tag) /\
         after = Some (Specific_dynamicsProcessing p) /\
         tag_of p = tag /\
         e = [EvContext c]).
Proof.
  intros s id specific. rewrite getParameterSpecific_runs.
  destruct specific as [pointee |];
    [| eexists _, _, _; split; [reflexivity |]; split; [auto | discriminate]].
  destruct id as [[v | tag] | o |];
    try (eexists _, _, _; split; [reflexivity |];
         split; [auto | discriminate]).
  destruct (mContext s) as [x |] eqn:Hx.
  - rewrite (getParameterDynamicsProcessing_with_context s tag pointee Hx).
    destruct tag; eexists _, _, _; (split; [reflexivity |]);
      (split; [auto; discriminate |]);
      try discriminate;
      intros _; eexists _, _, _; repeat split; reflexivity.
  - rewrite (getParameterDynamicsProcessing_null s tag pointee Hx).
    eexists _, _, _; split; [reflexivity |]; split; [auto | discriminate].
Qed.

(** X14. The status of [getParameterSpecific] is ok, [EX_ILLEGAL_ARGUMENT]
    or [EX_NULL_POINTER].  It is ok exactly when the output pointer is not
    null, the id carries a [commonTag] other than [vendorExtension], and
    the instance has a context.  It is [EX_NULL_POINTER] exactly when the
    output pointer is null, or the id carries a [commonTag] and the
    instance has no context. *)
Theorem getParameterSpecific_codes :
  forall (s : DynamicsProcessingImpl) (id : Parameter_Id)
         (specific : option Parameter_Specific),
    exists st after s' e,
      getParameterSpecific id specific s = Some ((st, after), s', e) /\
      (getExceptionCode st = EX_NONE \/
       getExceptionCode st = EX_ILLEGAL_ARGUMENT \/
       getExceptionCode st = EX_NULL_POINTER) /\
      (isOk st = true <->
       exists pointee tag,
         specific = Some pointee /\
         id = Id_dynamicsProcessingTag (Id_commonTag tag) /\
         tag <> vendorExtension /\
         has_context s = true) /\
      (getExceptionCode st = EX_NULL_POINTER <->
       specific = None \/
       exists pointee tag,
         specific = Some pointee /\
         id = Id_dynamicsProcessingTag (Id_commonTag tag) /\
         has_context s = false).
Proof.
  intros s id specific. rewrite getParameterSpecific_runs.
  destruct specific as [pointee |].
  2:{ eexists _, _, _, _. split; [reflexivity |].
      split; [auto |]. split; split; intros H; settle. }
  destruct id as [[v | tag] | o |];
    try (eexists _, _, _, _; (split; [reflexivity |]);
         split; [auto |]; split; split; intros H; settle).
  unfold has_context.
  destruct (mContext s) as [x |] eqn:Hx.
  - rewrite (getParameterDynamicsProcessing_with_context s tag pointee Hx).
    destruct tag; eexists _, _, _, _; (split; [reflexivity |]);
      (split; [auto |]); split; split; intros H; cbn in *; settle.
    all: try (exists pointee; eexists; repeat split; discriminate).
  - rewrite (getParameterDynamicsProcessing_null s tag pointee Hx).
    eexists _, _, _, _. split; [reflexivity |].
    split; [auto |]. split; split; intros H; cbn in *; settle.
Qed.

(** X15. The status of [setParameterSpecific] is ok,
    [EX_ILLEGAL_ARGUMENT] or [EX_NULL_POINTER], and it is
    [EX_NULL_POINTER] exactly when the tag is [dynamicsProcessing] and the
    instance has no context.  A call makes at most one call of the
    context; when it made none, the status is not ok and the instance is
    as it was; when the status is ok, it made exactly one. *)
Theorem setParameterSpecific_codes :
  forall (s : DynamicsProcessingImpl) (specific : Parameter_Specific),
    exists st s' e,
      setParameterSpecific specific s = Some (st, s', e) /\
      (getExceptionCode st = EX_NONE \/
       getExceptionCode st = EX_ILLEGAL_ARGUMENT \/
       getExceptionCode st = EX_NULL_POINTER) /\
      (getExceptionCode st = EX_NULL_POINTER <->
       Specific_is_dynamicsProcessing specific = true /\
       has_context s = false) /\
      (e = [] -> s' = s /\ isOk st = false) /\
      (isOk st = true -> exists c, e = [EvContext c]) /\
      (List.length e <= 1)%nat.
Proof.
  intros s specific. unfold has_context.
  destruct (setParameterSpecific_cases specific s)
    as [(o & -> & Hrun) | [(p & -> & Hx & Hrun) | [(v & x & -> & Hx & Hrun)
       | (p & x & c & rc & x' & message & -> & Hx & Hrun)]]];
    rewrite Hrun, ?Hx; eexists _, _, _; (split; [reflexivity |]); cbn.
  - split; [auto |]. split; [split; intros H; settle |].
    split; [auto |]. split; [discriminate | auto].
  - split; [auto |]. split; [split; intros H; settle |].
    split; [auto |]. split; [discriminate | auto].
  - split; [auto |]. split; [split; intros H; settle |].
    split; [auto |]. split; [discriminate | auto].
  - destruct (answered_code rc message) as [Hok Hcode].
    split; [destruct Hcode; auto |].
    split; [split; intros H; [| settle] |].
    + destruct Hcode as [Hcode | Hcode]; rewrite Hcode in H; discriminate.
    + split; [discriminate |]. split; [intros _; now exists c | auto].
Qed.

(** ** Setting, then getting *)

(** X16. The binding keeps no copy of a parameter: over a context whose
    getters read back what its setters accepted, a parameter that
    [setParameterSpecific] accepted is the one that
    [getParameterDynamicsProcessing] then returns for its tag, for each of
    the nine tags. *)
Theorem set_then_get_reads_back :
  context_reads_back ->
  forall (s : DynamicsProcessingImpl) (p : DynamicsProcessing),
    set_then_get s p (tag_of p).
Proof.
  intros (H1 & H2 & H3 & H4 & H5 & H6 & H7 & H8 & H9) s p
    st s' e specific Hrun Hok.
  destruct (mContext s) as [x |] eqn:Hx.
  - destruct p.
    1:{ rewrite (setParameterSpecific_enters s (make_vendorExtension v) Hx
                   eq_refl) in Hrun.
        inversion Hrun; subst. discriminate Hok. }
    all: match type of Hrun with
         | setParameterSpecific (Specific_dynamicsProcessing ?p) _ = _ =>
             let Hf := fresh "Hf" in
             eassert (Hf : forwarded s p _ _)
               by (eapply setParameterSpecific_arm; [exact Hx |];
                   apply (setParameterSpecific_enters s p Hx); reflexivity);
             destruct Hf as (st0 & Hrun0 & Hiff & _)
         end;
      rewrite Hrun0 in Hrun; inversion Hrun; subst st0 s' e; clear Hrun;
      apply Hiff in Hok;
      match type of Hok with
      | fst (?setter ?v ?x) = SUCCESS =>
          destruct (setter v x) as [rc x'] eqn:Hs
      end;
      cbn [fst snd] in *; subst rc;
      rewrite (getParameterDynamicsProcessing_with_context
                 (set_context (Some x') s) (x := x') _ specific eq_refl);
      cbn [tag_of];
      first [ rewrite (H1 _ _ _ Hs) | rewrite (H2 _ _ _ Hs)
            | rewrite (H3 _ _ _ Hs) | rewrite (H4 _ _ _ Hs)
            | rewrite (H5 _ _ _ Hs) | rewrite (H6 _ _ _ Hs)
            | rewrite (H7 _ _ _ Hs) | rewrite (H8 _ _ _ Hs)
            | rewrite (H9 _ _ _ Hs) ];
      eexists; reflexivity.
  - assert (Hnull : setParameterSpecific (Specific_dynamicsProcessing p) s =
                      Some (fromExceptionCodeWithMessage EX_NULL_POINTER
                              "nullContext", s, [])).
    { unfold setParameterSpecific. run_with Hx. reflexivity. }
    rewrite Hnull in Hrun. inversion Hrun; subst. discriminate Hok.
Qed.

(** ** Release and reset *)

(** X18. [releaseContext] does to the context what the [RESET] command
    does, and then drops it: the calls are the same two, in the same
    order, and the context that is released is the one [RESET] would have
    left in the instance. *)
Theorem release_is_reset_then_drop :
  forall (s : DynamicsProcessingImpl) (x : Ctx),
    mContext s = Some x ->
    exists s1 x1,
      commandImpl RESET s =
        Some (ScopedAStatus_ok, s1,
              [EvContext call_disable; EvContext call_resetBuffer]) /\
      mContext s1 = Some x1 /\
      releaseContext s =
        Some (SUCCESS, set_context None s1,
              [EvContext call_disable; EvContext call_resetBuffer] ++
              [EvResetContext x1]).
Proof.
  intros s x Hx.
  exists (set_context (Some (resetBuffer (disable x))) s),
    (resetBuffer (disable x)).
  split; [exact (commandImpl_with_context s RESET Hx) |].
  split; [reflexivity |].
  now rewrite (releaseContext_existing s Hx).
Qed.

End Consequences.

(** * The statements on the sample context *)

#[local] Existing Instance Sample.parcelables.
#[local] Existing Instance Sample.engine.

Lemma effectProcessImpl_delegates_witness :
  effectProcessImpl (Some [7]) (Some [0]) 1 Sample.running =
    Some ((mkIEffectStatus EX_NONE 1 1, Some [7], Some [7]),
          set_context (Some (Sample.with_pending true Sample.running_context))
            Sample.running,
          [EvContext (call_lvmProcess (Some [7]) (Some [0]) 1)]) /\
  effectProcessImpl (Some [7]) (Some [0]) 1 Sample.fresh =
    Some ((mkIEffectStatus EX_NULL_POINTER 0 0, Some [7], Some [0]),
          Sample.fresh, []).
Proof.
  split.
  - apply (proj1 (effectProcessImpl_delegates Sample.running
                    (Some [7]) (Some [0]) 1))
      with (c := Sample.running_context); reflexivity.
  - apply (proj2 (effectProcessImpl_delegates Sample.fresh
                    (Some [7]) (Some [0]) 1)). reflexivity.
Defined.

Lemma setParameterSpecific_dispatch_witness :
  forwarded Sample.running (make_engineArchitecture 5)
    (call_setEngineArchitecture 5)
    (SUCCESS, Sample.with_arch 5 Sample.running_context) /\
  forwarded Sample.running (make_engineArchitecture (-1))
    (call_setEngineArchitecture (-1))
    (ERROR_ILLEGAL_PARAMETER, Sample.running_context) /\
  setParameterSpecific (Specific_dynamicsProcessing (make_inputGain [4]))
    Sample.fresh =
    Some (fromExceptionCodeWithMessage EX_NULL_POINTER "nullContext",
          Sample.fresh, []).
Proof.
  split; [| split].
  - exact (proj1 (proj1 (proj2 (proj2
             (setParameterSpecific_dispatch Sample.running)))
                    Sample.running_context eq_refl) 5).
  - exact (proj1 (proj1 (proj2 (proj2
             (setParameterSpecific_dispatch Sample.running)))
                    Sample.running_context eq_refl) (-1)).
  - exact (proj1 (proj2 (setParameterSpecific_dispatch Sample.fresh))
             eq_refl (make_inputGain [4])).
Defined.

Lemma getParameterDynamicsProcessing_dispatch_witness :
  fetched Sample.running (Specific_other volume) inputGain call_getInputGain
    (make_inputGain [5]) /\
  getParameterDynamicsProcessing preEq (Specific_other volume) Sample.fresh =
    Some ((fromExceptionCodeWithMessage EX_NULL_POINTER "nullContext",
           Specific_other volume), Sample.fresh, []).
Proof.
  split.
  - exact (proj1 (proj2 (proj2 (proj2 (proj2 (proj2 (proj2 (proj2 (proj2
             (proj1 (getParameterDynamicsProcessing_dispatch Sample.running
                       (Specific_other volume))
                Sample.running_context eq_refl)))))))))).
  - exact (proj2 (getParameterDynamicsProcessing_dispatch Sample.fresh
                    (Specific_other volume)) eq_refl preEq).
Defined.

(** C3, as stated, fails on an instance without a context: on the
    [vendorExtension] tag the status is [EX_NULL_POINTER], not
    [EX_ILLEGAL_ARGUMENT]. *)
Lemma getParameterDynamicsProcessing_vendorExtension_without_context :
  getParameterDynamicsProcessing vendorExtension (Specific_other volume)
    Sample.fresh =
    Some ((fromExceptionCodeWithMessage EX_NULL_POINTER "nullContext",
           Specific_other volume), Sample.fresh, []) /\
  ~ (exists st after s' e,
        getParameterDynamicsProcessing vendorExtension (Specific_other volume)
          Sample.fresh = Some ((st, after), s', e) /\
        getExceptionCode st = EX_ILLEGAL_ARGUMENT).
Proof.
  split; [reflexivity |].
  intros (st & after & s' & e & Hrun & Hcode).
  vm_compute in Hrun. inversion Hrun; subst. discriminate Hcode.
Qed.

Lemma createEffect_checks_witness :
  createEffect (Some Sample.other_uuid) (Some None) =
    (EX_ILLEGAL_ARGUMENT, Some None, []) /\
  createEffect (Some kDynamicsProcessingImplUUID) (Some None) =
    (EX_NONE, Some (Some make_DynamicsProcessingImpl), [EvMakeEffect]).
Proof.
  split.
  - apply (proj1 (createEffect_checks (Some Sample.other_uuid) (Some None))).
    right. left. exists Sample.other_uuid. split; [reflexivity | discriminate].
  - apply (proj2 (createEffect_checks (Some kDynamicsProcessingImplUUID)
                    (Some None))).
    intros [H | [[u [H Hne]] | H]]; try discriminate.
    inversion H; subst u. now apply Hne.
Defined.

Lemma queryEffect_descriptor_witness :
  queryEffect None (Some kDescriptor) =
    Some (EX_ILLEGAL_ARGUMENT, Some kDescriptor) /\
  (forall d, queryEffect (Some kDynamicsProcessingImplUUID) (Some d) =
               Some (EX_NONE, Some kDescriptor)).
Proof.
  split.
  - apply (proj1 (queryEffect_descriptor None)). left. reflexivity.
  - apply (proj1 (proj2 (queryEffect_descriptor
                           (Some kDynamicsProcessingImplUUID)))).
    intros [H | [u [H Hne]]]; try discriminate.
    inversion H; subst u. now apply Hne.
Defined.

(** On the sample constants: with the supported UUID and a null
    [_aidl_return] the assignment goes through the null pointer and no
    code is returned. *)
Lemma queryEffect_null_return :
  queryEffect (Some kDynamicsProcessingImplUUID) None = None /\
  ~ (exists code after,
        queryEffect (Some kDynamicsProcessingImplUUID) None =
          Some (code, after) /\
        code = EX_NONE /\ after = Some kDescriptor).
Proof.
  split; [reflexivity |].
  intros (code & after & Hrun & _). vm_compute in Hrun. discriminate Hrun.
Qed.

Lemma open_reaches_idle_and_release_resets_witness :
  (exists st ret' s' evs,
      open Sample.common_float None (Some 0) Sample.fresh =
        Some ((st, ret'), s', evs) /\
      isOk st = true /\
      mState s' = IDLE /\
      evs = [EvMakeContext 1 Sample.common_float;
             EvSetParameterCommon Sample.common_float;
             EvContext call_getEngineArchitecture;
             EvContext (call_setEngineArchitecture 0);
             EvState IDLE;
             EvContext (call_dupeFmq (Some 0));
             EvCreateThread "DynamicsProcessing"]) /\
  releaseContext Sample.running =
    Some (SUCCESS, set_context None Sample.running,
          [EvContext call_disable; EvContext call_resetBuffer;
           EvResetContext
             (Sample.with_pending false
                (Sample.with_enabled false Sample.running_context))]).
Proof.
  split.
  - eexists _, _, _, _.
    split; [vm_compute; reflexivity |].
    split; [reflexivity |].
    split; [| reflexivity].
    eapply proj1.
    eapply (proj1 open_reaches_idle_and_release_resets
              Sample.fresh Sample.common_float None (Some 0)).
    + reflexivity.
    + split; reflexivity.
    + vm_compute. reflexivity.
    + reflexivity.
  - exact (proj2 open_reaches_idle_and_release_resets
             Sample.running Sample.running_context eq_refl).
Defined.

Lemma getParameterSpecific_dispatch_witness :
  getParameterSpecific (Id_otherTag volume) (Some (Specific_other volume))
    Sample.running =
    Some ((fromExceptionCodeWithMessage EX_ILLEGAL_ARGUMENT "wrongIdTag",
           Some (Specific_other volume)), Sample.running, []) /\
  (exists tag,
      Id_dynamicsProcessingTag (Id_commonTag preEq) =
        Id_dynamicsProcessingTag (Id_commonTag tag)).
Proof.
  split.
  - apply (proj1 (proj2 (getParameterSpecific_dispatch Sample.running))).
    discriminate.
  - apply (proj2 (proj2 (proj2 (proj2
             (getParameterSpecific_dispatch Sample.running))))
             (Id_dynamicsProcessingTag (Id_commonTag preEq))
             (Some (Specific_other volume))
             (ScopedAStatus_ok,
              Some (Specific_dynamicsProcessing
                      (@make_preEq Sample.parcelables [10; 20])))
             Sample.running [EvContext call_getPreEq]).
    + reflexivity.
    + discriminate.
Defined.

Lemma open_rejects_non_float_witness :
  open Sample.common_int16 None (Some 0) Sample.fresh =
    Some ((fromExceptionCodeWithMessage EX_ILLEGAL_ARGUMENT
             "dataMustBe32BitsFloat", Some 0), Sample.fresh, []).
Proof.
  apply (open_rejects_non_float (P := Sample.parcelables)). right. discriminate.
Defined.

Lemma open_again_is_noop_witness :
  open Sample.common_float None (Some 0) Sample.running =
    Some ((ScopedAStatus_ok, Some 0), Sample.running, []).
Proof.
  apply (open_again_is_noop (P := Sample.parcelables)).
  - split; reflexivity.
  - discriminate.
Defined.

Lemma createContext_idempotent_witness :
  createContext Sample.common_int16 Sample.running =
    Some (Some Sample.running_context, Sample.running, []) /\
  createContext Sample.common_float Sample.fresh =
    Some (Some (makeContext 1 Sample.common_float),
          set_context (Some (makeContext 1 Sample.common_float)) Sample.fresh,
          [EvMakeContext 1 Sample.common_float]) /\
  releaseContext Sample.fresh = Some (SUCCESS, Sample.fresh, []).
Proof.
  split; [| split].
  - exact (proj1 (createContext_idempotent Sample.running Sample.common_int16)
             Sample.running_context eq_refl).
  - exact (proj1 (proj2 (createContext_idempotent Sample.fresh
                           Sample.common_float)) eq_refl).
  - exact (proj2 (proj2 (proj2 (proj2
             (createContext_idempotent Sample.fresh Sample.common_float))))
             eq_refl).
Defined.

(** * The further properties on the sample context *)

Lemma commandImpl_dispatch_witness :
  commandImpl RESET Sample.running =
    Some (ScopedAStatus_ok,
          set_context
            (Some (Sample.with_pending false
                     (Sample.with_enabled false Sample.running_context)))
            Sample.running,
          [EvContext call_disable; EvContext call_resetBuffer]) /\
  commandImpl START Sample.fresh =
    Some (fromExceptionCodeWithMessage EX_NULL_POINTER "nullContext",
          Sample.fresh, []).
Proof.
  split.
  - exact (proj1 (proj2 (proj2 (proj2 (commandImpl_dispatch Sample.running)
             Sample.running_context eq_refl)))).
  - exact (proj1 (commandImpl_dispatch Sample.fresh) eq_refl START).
Defined.

Lemma getDescriptor_agrees_with_queryEffect_witness :
  Sample.other_uuid <> id_uuid (id (common kDescriptor)) /\
  queryEffect (Some kDynamicsProcessingImplUUID) (Some kDescriptor) =
    Some (EX_NONE, Some kDescriptor).
Proof.
  pose proof (proj2 (proj2 (proj2 (proj2
                (getDescriptor_agrees_with_queryEffect
                   (P := Sample.parcelables) (E := Sample.engine)))))) as H.
  split.
  - intros Heq. apply (H Sample.other_uuid kDescriptor) in Heq.
    vm_compute in Heq. discriminate Heq.
  - apply (H kDynamicsProcessingImplUUID kDescriptor). reflexivity.
Defined.

Lemma open_transitions_witness :
  (exists st ret' s' evs,
      open Sample.common_float None (Some 0) Sample.fresh =
        Some ((st, ret'), s', evs) /\
      has_context s' = true /\ mState s' <> INIT) /\
  (exists st ret' s' evs,
      open Sample.common_int16 None (Some 0) Sample.running =
        Some ((st, ret'), s', evs) /\
      has_context s' = true).
Proof.
  split.
  - destruct (open_transitions Sample.fresh Sample.common_float None (Some 0))
      as (st & ret' & s' & evs & Hopen & _ & _ & Hok & Hctx).
    exists st, ret', s', evs. split; [exact Hopen |]. split.
    + apply Hctx; [split; reflexivity | reflexivity].
    + apply Hok. pose proof Hopen as Hc. vm_compute in Hc.
      inversion Hc. reflexivity.
  - destruct (open_transitions Sample.running Sample.common_int16 None (Some 0))
      as (st & ret' & s' & evs & Hopen & _ & Hkeep & _ & _).
    exists st, ret', s', evs. split; [exact Hopen |].
    apply Hkeep. reflexivity.
Defined.

Lemma open_failure_from_init_witness :
  exists st ret' s' evs,
    open Sample.common_float (Some (Specific_other volume)) (Some 0)
      Sample.fresh = Some ((st, ret'), s', evs) /\
    isOk st = false /\
    has_context s' = true.
Proof.
  eexists _, _, _, _.
  split; [vm_compute; reflexivity |].
  split; [reflexivity |].
  eapply proj1.
  eapply (@open_failure_from_init Sample.parcelables Sample.engine
            Sample.fresh Sample.common_float
            (Some (Specific_other volume)) (Some 0)).
  - split; reflexivity.
  - reflexivity.
  - vm_compute. reflexivity.
  - reflexivity.
Defined.

Lemma open_twice_witness :
  exists st ret' s' evs,
    open Sample.common_float None (Some 0) Sample.fresh =
      Some ((st, ret'), s', evs) /\
    open Sample.common_float (Some (Specific_other volume)) None s' =
      Some ((ScopedAStatus_ok, None), s', []).
Proof.
  eexists _, _, _, _.
  split; [vm_compute; reflexivity |].
  eapply (@open_twice Sample.parcelables Sample.engine
            Sample.fresh Sample.common_float None (Some 0)).
  - vm_compute. reflexivity.
  - reflexivity.
  - split; reflexivity.
Defined.

Lemma open_then_process_witness :
  exists st ret' s' evs x,
    open Sample.common_float None (Some 0) Sample.fresh =
      Some ((st, ret'), s', evs) /\
    mContext s' = Some x /\
    effectProcessImpl (Some [7]) (Some [0]) 1 s' =
      Some (fst (lvmProcess (Some [7]) (Some [0]) 1 x),
            set_context (Some (snd (lvmProcess (Some [7]) (Some [0]) 1 x))) s',
            [EvContext (call_lvmProcess (Some [7]) (Some [0]) 1)]).
Proof.
  assert (Hopen : exists st ret' s' evs,
             open Sample.common_float None (Some 0) Sample.fresh =
               Some ((st, ret'), s', evs) /\ isOk st = true).
  { eexists _, _, _, _. split; [vm_compute; reflexivity | reflexivity]. }
  destruct Hopen as (st & ret' & s' & evs & Hopen & Hok).
  destruct (@open_then_process Sample.parcelables Sample.engine
              Sample.fresh Sample.common_float None (Some 0) st ret' s' evs
              eq_refl Hopen Hok) as (x & Hx & Hprocess & _).
  exists st, ret', s', evs, x.
  split; [exact Hopen | split; [exact Hx | apply Hprocess]].
Defined.

Lemma context_life_cycle_witness :
  releaseContext (set_context None Sample.running) =
    Some (SUCCESS, set_context None Sample.running, []) /\
  createContext Sample.common_float (set_context None Sample.running) =
    Some (Some (makeContext 1 Sample.common_float),
          set_context (Some (makeContext 1 Sample.common_float))
            (set_context None Sample.running),
          [EvMakeContext 1 Sample.common_float]) /\
  (exists x0,
      Some (makeContext 1 Sample.common_float) = Some x0 /\
      releaseContext
        (set_context (Some (makeContext 1 Sample.common_float)) Sample.fresh) =
        Some (SUCCESS, set_context None Sample.fresh,
              [EvContext call_disable; EvContext call_resetBuffer;
               EvResetContext (resetBuffer (disable x0))])).
Proof.
  split; [| split].
  - eapply (proj1 (context_life_cycle Sample.running)). reflexivity.
  - eapply (proj1 (proj2 (context_life_cycle Sample.running))
              Sample.common_float). reflexivity.
  - eapply (proj2 (proj2 (context_life_cycle Sample.fresh))
              Sample.common_float). reflexivity.
Defined.

Lemma open_after_release_makes_no_context_witness :
  exists s1 e1,
    releaseContext Sample.running = Some (SUCCESS, s1, e1) /\
    open Sample.common_float None (Some 0) s1 =
      Some ((ScopedAStatus_ok, Some 0), s1, []) /\
    mContext s1 = None /\
    effectProcessImpl (Some [7]) (Some [0]) 1 s1 =
      Some ((mkIEffectStatus EX_NULL_POINTER 0 0, Some [7], Some [0]), s1, []).
Proof.
  apply (open_after_release_makes_no_context (P := Sample.parcelables)).
  - discriminate.
  - split; reflexivity.
Defined.

Lemma open_propagates_common_failure_witness :
  open {| session := 1; ioHandle := 2;
          input := Sample.float_config 0; output := Sample.float_config 0 |}
    None (Some 0) Sample.fresh =
    Some ((fromExceptionCodeWithMessage EX_ILLEGAL_ARGUMENT "setCommParamErr",
           Some 0),
          set_context
            (Some (makeContext 1
                     {| session := 1; ioHandle := 2;
                        input := Sample.float_config 0;
                        output := Sample.float_config 0 |}))
            Sample.fresh,
          [EvMakeContext 1
             {| session := 1; ioHandle := 2;
                input := Sample.float_config 0;
                output := Sample.float_config 0 |};
           EvSetParameterCommon
             {| session := 1; ioHandle := 2;
                input := Sample.float_config 0;
                output := Sample.float_config 0 |}]).
Proof.
  apply (@open_propagates_common_failure Sample.parcelables Sample.engine
           Sample.fresh
           {| session := 1; ioHandle := 2;
              input := Sample.float_config 0; output := Sample.float_config 0 |}
           None (Some 0)).
  - split; reflexivity.
  - reflexivity.
  - reflexivity.
Defined.

Lemma open_refuses_foreign_specific_witness :
  exists st s' evs,
    open Sample.common_float
      (Some (Specific_dynamicsProcessing (@make_vendorExtension Sample.parcelables 9))) (Some 0)
      Sample.fresh = Some ((st, Some 0), s', evs) /\
    isOk st = false /\
    mState s' = INIT /\
    has_context s' = true /\
    st = fromExceptionCodeWithMessage EX_ILLEGAL_ARGUMENT "setSpecParamErr".
Proof.
  destruct (@open_refuses_foreign_specific Sample.parcelables Sample.engine
              Sample.fresh Sample.common_float
              (Specific_dynamicsProcessing (@make_vendorExtension Sample.parcelables 9)) (Some 0))
    as (st & s' & evs & Hopen & Hok & Hs & Hc & _ & Hst).
  - split; reflexivity.
  - reflexivity.
  - right. now exists 9.
  - exists st, s', evs.
    split; [exact Hopen |]. split; [exact Hok |]. split; [exact Hs |].
    split; [exact Hc |]. apply Hst. reflexivity.
Defined.

Lemma getParameterSpecific_output_witness :
  (exists st after e tag p c,
      getParameterSpecific (Id_dynamicsProcessingTag (Id_commonTag inputGain))
        (Some (Specific_other volume)) Sample.running =
        Some ((st, after), Sample.running, e) /\
      Id_dynamicsProcessingTag (Id_commonTag inputGain) =
        Id_dynamicsProcessingTag (Id_commonTag tag) /\
      after = Some (Specific_dynamicsProcessing p) /\
      tag_of p = tag /\
      e = [EvContext c]) /\
  (exists st after e,
      getParameterSpecific (Id_otherTag volume) (Some (Specific_other volume))
        Sample.running = Some ((st, after), Sample.running, e) /\
      after = Some (Specific_other volume) /\
      e = []).
Proof.
  split.
  - destruct (getParameterSpecific_output Sample.running
                (Id_dynamicsProcessingTag (Id_commonTag inputGain))
                (Some (Specific_other volume)))
      as (st & after & e & Hrun & _ & Hok).
    assert (Hst : isOk st = true).
    { pose proof Hrun as Hc. vm_compute in Hc. inversion Hc. reflexivity. }
    destruct (Hok Hst) as (tag & p & c & Hid & Hafter & Htag & He).
    exists st, after, e, tag, p, c. auto.
  - destruct (getParameterSpecific_output Sample.running
                (Id_otherTag volume) (Some (Specific_other volume)))
      as (st & after & e & Hrun & Hfail & _).
    assert (Hst : isOk st = false).
    { pose proof Hrun as Hc. vm_compute in Hc. inversion Hc. reflexivity. }
    destruct (Hfail Hst) as [Hafter He].
    exists st, after, e. auto.
Defined.

Lemma getParameterSpecific_codes_witness :
  (exists st after s' e,
      getParameterSpecific (Id_dynamicsProcessingTag (Id_commonTag preEq))
        (Some (Specific_other volume)) Sample.running =
        Some ((st, after), s', e) /\
      isOk st = true /\
      getExceptionCode st <> EX_NULL_POINTER) /\
  (exists st after s' e,
      getParameterSpecific (Id_dynamicsProcessingTag (Id_commonTag preEq))
        (Some (Specific_other volume)) Sample.fresh =
        Some ((st, after), s', e) /\
      getExceptionCode st = EX_NULL_POINTER /\
      isOk st <> true).
Proof.
  split.
  - destruct (getParameterSpecific_codes Sample.running
                (Id_dynamicsProcessingTag (Id_commonTag preEq))
                (Some (Specific_other volume)))
      as (st & after & s' & e & Hrun & _ & Hok & Hnull).
    exists st, after, s', e. split; [exact Hrun |]. split.
    + apply (proj2 Hok). exists (Specific_other volume), preEq.
      repeat split. discriminate.
    + intros H. apply (proj1 Hnull) in H.
      destruct H as [H | (pointee & tag & _ & _ & H)]; discriminate H.
  - destruct (getParameterSpecific_codes Sample.fresh
                (Id_dynamicsProcessingTag (Id_commonTag preEq))
                (Some (Specific_other volume)))
      as (st & after & s' & e & Hrun & _ & Hok & Hnull).
    exists st, after, s', e. split; [exact Hrun |]. split.
    + apply (proj2 Hnull). right. exists (Specific_other volume), preEq.
      repeat split.
    + intros H. apply (proj1 Hok) in H.
      destruct H as (pointee & tag & _ & _ & _ & H). discriminate H.
Defined.

Lemma setParameterSpecific_codes_witness :
  (exists st s' e c,
      setParameterSpecific
        (Specific_dynamicsProcessing (@make_inputGain Sample.parcelables [4]))
        Sample.running = Some (st, s', e) /\
      e = [EvContext c] /\
      getExceptionCode st <> EX_NULL_POINTER) /\
  (exists st s' e,
      setParameterSpecific (Specific_other volume) Sample.running =
        Some (st, s', e) /\
      s' = Sample.running /\ isOk st = false).
Proof.
  split.
  - destruct (setParameterSpecific_codes Sample.running
                (Specific_dynamicsProcessing
                   (@make_inputGain Sample.parcelables [4])))
      as (st & s' & e & Hrun & _ & Hnull & _ & Hok & _).
    assert (Hst : isOk st = true).
    { pose proof Hrun as Hc. vm_compute in Hc. inversion Hc. reflexivity. }
    destruct (Hok Hst) as [c He].
    exists st, s', e, c. split; [exact Hrun |]. split; [exact He |].
    intros H. apply (proj1 Hnull) in H. destruct H as [_ H]. discriminate H.
  - destruct (setParameterSpecific_codes Sample.running (Specific_other volume))
      as (st & s' & e & Hrun & _ & _ & Hnone & _ & _).
    assert (He : e = []).
    { pose proof Hrun as Hc. vm_compute in Hc. inversion Hc. reflexivity. }
    destruct (Hnone He) as [Hs Hst].
    exists st, s', e. auto.
Defined.

Lemma set_then_get_reads_back_witness :
  exists st s' e e',
    setParameterSpecific
      (Specific_dynamicsProcessing (@make_inputGain Sample.parcelables [4]))
      Sample.running = Some (st, s', e) /\
    getParameterDynamicsProcessing inputGain (Specific_other volume) s' =
      Some ((ScopedAStatus_ok,
             Specific_dynamicsProcessing
               (@make_inputGain Sample.parcelables [4])), s', e').
Proof.
  assert (Hlaw : context_reads_back (P := Sample.parcelables)).
  { unfold context_reads_back, reads_back.
    repeat split; intros v x x' H; try (inversion H; reflexivity).
    cbn in H. unfold Sample.set_arch in H.
    destruct (v <? 0); inversion H. reflexivity. }
  assert (Hset : exists st s' e,
             setParameterSpecific
               (Specific_dynamicsProcessing
                  (@make_inputGain Sample.parcelables [4]))
               Sample.running = Some (st, s', e) /\ isOk st = true).
  { eexists _, _, _. split; [vm_compute; reflexivity | reflexivity]. }
  destruct Hset as (st & s' & e & Hset & Hok).
  destruct (set_then_get_reads_back Hlaw Sample.running
              (@make_inputGain Sample.parcelables [4])
              (Specific_other volume) Hset Hok) as [e' Hget].
  exists st, s', e, e'. split; [exact Hset | exact Hget].
Defined.

Lemma release_is_reset_then_drop_witness :
  exists s1 x1,
    commandImpl RESET Sample.running =
      Some (ScopedAStatus_ok, s1,
            [EvContext call_disable; EvContext call_resetBuffer]) /\
    mContext s1 = Some x1 /\
    releaseContext Sample.running =
      Some (SUCCESS, set_context None s1,
            [EvContext call_disable; EvContext call_resetBuffer] ++
            [EvResetContext x1]).
Proof.
  apply (@release_is_reset_then_drop Sample.parcelables Sample.engine
           Sample.running Sample.running_context).
  reflexivity.
Defined.
